(** * mcp-medicine-server: the tool handlers and the JSON-RPC dispatcher

    A shallow embedding of [src/main.py].  Python [str] values are Rocq
    strings whose characters are read as the code points U+0000..U+00FF;
    Python's unbounded [int] is [Z]; the insertion-ordered dict [MEDICINES]
    is an association list; the module-level list [orders] is the state that
    every handler threads.  Arguments have the types of their annotations
    and of the tools' input schemas; the clock that [place_order] reads is an
    input of the call. *)

From Stdlib Require Import ZArith NArith List Bool Ascii String Lia.
From Stdlib Require Import Sorted Permutation FinFun.
From Stdlib Require Import DecimalString DecimalNat.
Import ListNotations.

Local Open Scope list_scope.
Local Open Scope string_scope.

(** ** Python string operations *)

Module PyStr.

(** [str.lower] on one code point of the Latin-1 range: A-Z and the
    accented capitals U+00C0..U+00DE (the multiplication sign U+00D7
    apart) move up by 32, everything else is fixed. *)
Definition lower_char (c : ascii) : ascii :=
  let n := N_of_ascii c in
  if ((65 <=? n) && (n <=? 90))%N
     || ((192 <=? n) && (n <=? 222) && negb (n =? 215))%N
  then ascii_of_N (n + 32)
  else c.

Fixpoint lower (s : string) : string :=
  match s with
  | EmptyString => EmptyString
  | String c t => String (lower_char c) (lower t)
  end.

(** [s.replace(" ", "")]: every space character is dropped. *)
Fixpoint remove_spaces (s : string) : string :=
  match s with
  | EmptyString => EmptyString
  | String c t =>
      if Ascii.eqb c " "%char then remove_spaces t
      else String c (remove_spaces t)
  end.

(** [s.startswith(p)]. *)
Fixpoint startswith (p s : string) : bool :=
  match p, s with
  | EmptyString, _ => true
  | String _ _, EmptyString => false
  | String a p', String b s' => Ascii.eqb a b && startswith p' s'
  end.

(** [sub in s] for two strings. *)
Fixpoint contains (sub s : string) : bool :=
  startswith sub s ||
  match s with
  | EmptyString => false
  | String _ t => contains sub t
  end.

(** [sep.join(l)]. *)
Fixpoint join (sep : string) (l : list string) : string :=
  match l with
  | [] => EmptyString
  | [x] => x
  | x :: (_ :: _) as t => x ++ sep ++ join sep t
  end.

(** [str(n)] for a non-negative machine-independent integer. *)
Definition of_nat (n : nat) : string :=
  NilEmpty.string_of_uint (Nat.to_uint n).

(** [str(z)] for a Python [int]. *)
Definition of_Z (z : Z) : string :=
  NilEmpty.string_of_int (Z.to_int z).

(** The line feed that the f-strings write as a backslash followed by n. *)
Definition nl : string := String (ascii_of_nat 10) EmptyString.

(** [x in l] for a list of strings. *)
Definition mem (x : string) (l : list string) : bool :=
  existsb (String.eqb x) l.

(** The relation that [contains] decides. *)
Definition substring_of (sub s : string) : Prop :=
  exists l r : string, s = l ++ sub ++ r.

End PyStr.

(** ** The medicine catalogue *)

(** A catalogue record.  The price literal of the source (a double such as
    [15.99]) is recorded in cents. *)
Record MedicineRecord := Medicine {
  name : string;
  dosages : list string;
  price : Z;
  category : string
}.

Definition medicine_eqb (a b : MedicineRecord) : bool :=
  String.eqb (name a) (name b)
  && (if list_eq_dec string_dec (dosages a) (dosages b) then true else false)
  && Z.eqb (price a) (price b)
  && String.eqb (category a) (category b).

Definition MEDICINES : list (string * MedicineRecord) :=
  [ ("lisinopril", Medicine "Lisinopril" ["5mg"; "10mg"; "20mg"] 1599 "ACE Inhibitor");
    ("metformin", Medicine "Metformin" ["500mg"; "850mg"; "1000mg"] 1250 "Antidiabetic");
    ("atorvastatin", Medicine "Atorvastatin" ["10mg"; "20mg"; "40mg"] 1875 "Statin");
    ("omeprazole", Medicine "Omeprazole" ["20mg"; "40mg"] 999 "PPI");
    ("amlodipine", Medicine "Amlodipine" ["5mg"; "10mg"] 1425 "Calcium Channel Blocker");
    ("ibuprofen", Medicine "Ibuprofen" ["200mg"; "400mg"; "600mg"] 850 "NSAID");
    ("acetaminophen", Medicine "Acetaminophen" ["325mg"; "500mg"; "650mg"] 799 "Analgesic");
    ("aspirin", Medicine "Aspirin" ["81mg"; "325mg"] 699 "NSAID/Antiplatelet");
    ("losartan", Medicine "Losartan" ["25mg"; "50mg"; "100mg"] 1650 "ARB");
    ("gabapentin", Medicine "Gabapentin" ["100mg"; "300mg"; "600mg"] 2200 "Anticonvulsant") ].

(** [f"{price:.2f}"] of a catalogue price: the two-decimal rendering of the
    literal. *)
Definition price_2f (cents : Z) : string :=
  let frac := (cents mod 100)%Z in
  PyStr.of_Z (cents / 100) ++ "."
  ++ (if (frac <? 10)%Z then "0" else "") ++ PyStr.of_Z frac.

(** ** Name resolution

    The loop that [check_availability] (lines 164-169) and [place_order]
    (lines 185-190) both run: the key is the lower-cased name without its
    spaces, and the first catalogue entry whose key or normalised display
    name contains it wins. *)

Definition med_key (medicine_name : string) : string :=
  PyStr.remove_spaces (PyStr.lower medicine_name).

Definition key_matches (mk : string) (entry : string * MedicineRecord) : bool :=
  PyStr.contains mk (fst entry)
  || PyStr.contains mk (PyStr.remove_spaces (PyStr.lower (name (snd entry)))).

Fixpoint first_match (mk : string) (catalog : list (string * MedicineRecord))
  : option MedicineRecord :=
  match catalog with
  | [] => None
  | entry :: rest =>
      if key_matches mk entry then Some (snd entry) else first_match mk rest
  end.

Definition found_med (medicine_name : string) : option MedicineRecord :=
  first_match (med_key medicine_name) MEDICINES.

(** What [key_matches] decides. *)
Definition entry_matches (mk : string) (entry : string * MedicineRecord) : Prop :=
  PyStr.substring_of mk (fst entry)
  \/ PyStr.substring_of mk (PyStr.remove_spaces (PyStr.lower (name (snd entry)))).

(** The resolver as the claim words it: the input lower-cased and without
    its whitespace, and containment tested in both directions. *)
Module ClaimedResolver.
Definition is_whitespace (c : ascii) : bool :=
  let n := N_of_ascii c in ((9 <=? n) && (n <=? 13) || (n =? 32))%N.

Fixpoint strip_whitespace (s : string) : string :=
  match s with
  | EmptyString => EmptyString
  | String c t => if is_whitespace c then strip_whitespace t
                  else String c (strip_whitespace t)
  end.

Definition normalize (input : string) : string :=
  strip_whitespace (PyStr.lower input).

Definition bidirectional (n key : string) : bool :=
  PyStr.contains n key || PyStr.contains key n.

Definition resolve (input : string) : option MedicineRecord :=
  option_map snd
    (find (fun e => bidirectional (normalize input) (fst e)) MEDICINES).
End ClaimedResolver.

(** ** Tool results

    The dict every handler returns: one text block, and the key [isError]
    (present, with value [True], exactly when the field below is [true]). *)

Record tool_result := ToolResult {
  text : string;
  isError : bool
}.

Definition ok_result (t : string) : tool_result := ToolResult t false.
Definition error_result (t : string) : tool_result := ToolResult t true.

(** ** search_medicines *)

Definition category_aliases : list (string * list string) :=
  [ ("blood pressure", ["ace inhibitor"; "arb"; "calcium channel blocker"]);
    ("diabetes", ["antidiabetic"]);
    ("cholesterol", ["statin"]);
    ("pain", ["nsaid"; "analgesic"]) ].

Definition search_terms (query_lower : string) : list string :=
  query_lower ::
  flat_map (fun ac : string * list string =>
              if PyStr.contains (fst ac) query_lower then snd ac else [])
           category_aliases.

Record display_info := Display {
  d_name : string;
  d_category : string;
  available_dosages : list string;
  price_per_unit : string
}.

Record search_hit := Hit {
  data : MedicineRecord;
  display : display_info
}.

Definition term_matches (term : string) (entry : string * MedicineRecord) : bool :=
  PyStr.contains term (fst entry)
  || PyStr.contains term (PyStr.lower (category (snd entry)))
  || PyStr.contains term (PyStr.lower (name (snd entry))).

Definition make_hit (med : MedicineRecord) : search_hit :=
  Hit med (Display (name med) (category med) (dosages med)
                   ("$" ++ price_2f (price med))).

(** The outer loop of lines 137-150, with [results] as accumulator.  The
    inner loop stops at the first matching term, and its body does not
    depend on which term that is. *)
Fixpoint search_loop (terms : list string) (catalog : list (string * MedicineRecord))
    (results : list search_hit) : list search_hit :=
  match catalog with
  | [] => results
  | entry :: rest =>
      let med := snd entry in
      let results' :=
        if existsb (fun term => term_matches term entry) terms then
          if existsb (medicine_eqb med) (map data results) then results
          else (results ++ [make_hit med])%list
        else results in
      search_loop terms rest results'
  end.

Definition search_results (query : string) : list search_hit :=
  search_loop (search_terms (PyStr.lower query)) MEDICINES [].

Fixpoint search_lines (i : nat) (results : list search_hit) : string :=
  match results with
  | [] => ""
  | r :: rest =>
      let d := display r in
      PyStr.of_nat i ++ ". **" ++ d_name d ++ "** (" ++ d_category d ++ ")" ++ PyStr.nl
      ++ "   Dosages: " ++ PyStr.join ", " (available_dosages d) ++ PyStr.nl
      ++ "   Price: " ++ price_per_unit d ++ " per unit" ++ PyStr.nl ++ PyStr.nl
      ++ search_lines (S i) rest
  end.

Definition search_medicines (query : string) : tool_result :=
  let results := search_results query in
  match results with
  | [] => ok_result ("No medicines found matching '" ++ query ++ "'.")
  | _ :: _ =>
      ok_result ("Found " ++ PyStr.of_nat (List.length results)
                 ++ " medicine(s) matching '" ++ query ++ "':" ++ PyStr.nl ++ PyStr.nl
                 ++ search_lines 1 results)
  end.

(** ** check_availability *)

Definition in_stock_text (med : MedicineRecord) : string :=
  "**" ++ name med ++ "** is IN STOCK" ++ PyStr.nl
  ++ "Category: " ++ category med ++ PyStr.nl
  ++ "Dosages: " ++ PyStr.join ", " (dosages med) ++ PyStr.nl
  ++ "Price: $" ++ price_2f (price med) ++ " per unit".

(** The optional [dosage] is [None] when the argument is left out; [None]
    and the empty string are both false in the two tests on it. *)
Definition check_availability (medicine_name : string) (dosage : option string)
  : tool_result :=
  match found_med medicine_name with
  | Some med =>
      match dosage with
      | Some d =>
          if negb (String.eqb d "") && negb (PyStr.mem d (dosages med)) then
            ok_result ("**" ++ name med ++ "** is available but NOT in "
                       ++ d ++ " dosage." ++ PyStr.nl
                       ++ "Available dosages: " ++ PyStr.join ", " (dosages med)
                       ++ PyStr.nl
                       ++ "Price: $" ++ price_2f (price med) ++ " per unit")
          else
            ok_result (in_stock_text med
                       ++ (if negb (String.eqb d "")
                           then PyStr.nl ++ d
                                ++ " dosage is available for immediate order."
                           else ""))
      | None => ok_result (in_stock_text med)
      end
  | None =>
      ok_result ("**" ++ medicine_name ++ "** is NOT AVAILABLE in our pharmacy inventory.")
  end.

(** ** check_drug_interactions *)

Record rule := Rule {
  drug1 : string;
  drug2 : string;
  rule_severity : string;
  rule_description : string
}.

Definition interactions : list rule :=
  [ Rule "lisinopril" "ibuprofen" "MODERATE"
      "NSAIDs may reduce the antihypertensive effect of ACE inhibitors and increase risk of kidney problems";
    Rule "lisinopril" "aspirin" "MINOR"
      "Low-dose aspirin is generally safe with ACE inhibitors";
    Rule "metformin" "ibuprofen" "MINOR"
      "NSAIDs may slightly increase risk of lactic acidosis with metformin";
    Rule "atorvastatin" "amlodipine" "SAFE"
      "No significant interaction - commonly prescribed together";
    Rule "lisinopril" "metformin" "SAFE"
      "Commonly prescribed together for diabetic patients with hypertension";
    Rule "lisinopril" "losartan" "SEVERE"
      "Do NOT combine ACE inhibitors with ARBs - increased risk of hyperkalemia and kidney damage";
    Rule "ibuprofen" "aspirin" "MODERATE"
      "NSAIDs may reduce cardioprotective effect of low-dose aspirin";
    Rule "gabapentin" "opioids" "SEVERE"
      "Increased risk of respiratory depression - use with extreme caution" ].

Record interaction := Interaction {
  drugs : string;
  severity : string;
  description : string
}.

(** [drug in med or med in drug]. *)
Definition either_in (drug med : string) : bool :=
  PyStr.contains drug med || PyStr.contains med drug.

(** [l.index(x)]: the position of the first element equal to [x]. *)
Fixpoint index (x : string) (l : list string) : option nat :=
  match l with
  | [] => None
  | y :: t => if String.eqb y x then Some 0
              else option_map S (index x t)
  end.

(** [medicines[medicines_lower.index(med)]].  The lookup cannot miss: [med]
    is always drawn from [medicines_lower], which is as long as
    [medicines]. *)
Definition original (medicines medicines_lower : list string) (med : string)
  : string :=
  match index med medicines_lower with
  | Some i => nth i medicines ""
  | None => ""
  end.

(** The body of the innermost loop (lines 228-231) for one rule. *)
Definition match_rule (medicines medicines_lower : list string)
    (med1 med2 : string) (r : rule) : list interaction :=
  let hit := Interaction (original medicines medicines_lower med1 ++ " + "
                          ++ original medicines medicines_lower med2)
                         (rule_severity r) (rule_description r) in
  if either_in (drug1 r) med1 && either_in (drug2 r) med2 then [hit]
  else if either_in (drug2 r) med1 && either_in (drug1 r) med2 then [hit]
  else [].

(** The two outer loops: [rest] is [medicines_lower[i:]]. *)
Fixpoint scan_pairs (medicines medicines_lower rest : list string)
  : list interaction :=
  match rest with
  | [] => []
  | med1 :: later =>
      (flat_map (fun med2 =>
                   flat_map (match_rule medicines medicines_lower med1 med2)
                            interactions)
                later
       ++ scan_pairs medicines medicines_lower later)%list
  end.

Definition found_interactions (medicines : list string) : list interaction :=
  let medicines_lower := map med_key medicines in
  scan_pairs medicines medicines_lower medicines_lower.

(** [severity_order.get(s, 4)]. *)
Definition severity_order (s : string) : nat :=
  if String.eqb s "SEVERE" then 0
  else if String.eqb s "MODERATE" then 1
  else if String.eqb s "MINOR" then 2
  else if String.eqb s "SAFE" then 3
  else 4.

(** [list.sort(key=...)] is a stable sort; what a stable sort returns is
    fixed by the keys, and this insertion sort computes it. *)
Section StableSort.
Context {A : Type} (key : A -> nat).

Fixpoint insert_by (x : A) (l : list A) : list A :=
  match l with
  | [] => [x]
  | y :: t => if (key x <=? key y)%nat then x :: y :: t
              else y :: insert_by x t
  end.

Fixpoint sort_by (l : list A) : list A :=
  match l with
  | [] => []
  | x :: t => insert_by x (sort_by t)
  end.

(** Order by key. *)
Definition key_le (a b : A) : Prop := key a <= key b.
End StableSort.

Definition sorted_interactions (medicines : list string) : list interaction :=
  sort_by (fun x => severity_order (severity x)) (found_interactions medicines).

Fixpoint interaction_lines (l : list interaction) : string :=
  match l with
  | [] => ""
  | x :: t => "[" ++ severity x ++ "] " ++ drugs x ++ ": " ++ description x
              ++ PyStr.nl ++ PyStr.nl ++ interaction_lines t
  end.

Definition check_drug_interactions (medicines : list string) : tool_result :=
  match found_interactions medicines with
  | [] => ok_result ("No known interactions found between: "
                     ++ PyStr.join ", " medicines)
  | _ :: _ =>
      ok_result ("Drug Interaction Check for: " ++ PyStr.join ", " medicines
                 ++ PyStr.nl ++ PyStr.nl
                 ++ interaction_lines (sorted_interactions medicines))
  end.

(** ** Handlers over the order ledger

    A handler reads and may extend the module-level list [orders], and it
    may raise.  [handler S A] threads the ledger [S] and answers either a
    value or the exception. *)

Inductive exn := OverflowError.

Inductive outcome (A : Type) :=
| Returned (a : A)
| Raised (e : exn).
Arguments Returned {A} a.
Arguments Raised {A} e.

Module Handler.
Definition t (S A : Type) : Type := S -> outcome A * S.

Definition ret {S A} (a : A) : t S A := fun s => (Returned a, s).
Definition raise {S A} (e : exn) : t S A := fun s => (Raised e, s).
Definition bind {S A B} (m : t S A) (k : A -> t S B) : t S B :=
  fun s => match m s with
           | (Returned a, s') => k a s'
           | (Raised e, s') => (Raised e, s')
           end.
Definition get {S} : t S S := fun s => (Returned s, s).
Definition put {S} (s' : S) : t S unit := fun _ => (Returned tt, s').
End Handler.

Notation "x <- m ;; k" := (Handler.bind m (fun x => k))
  (at level 61, m at next level, right associativity).
Notation "m ;;; k" := (Handler.bind m (fun _ => k))
  (at level 61, right associativity).

(** Binary floating point stays outside the model.  [price * quantity]
    converts the integer to a double first, and that conversion raises
    [OverflowError] exactly when the integer rounds (to nearest, ties to
    even) beyond the largest double; below that bound the product and its
    [:.2f] rendering are whatever the float operations [F] say. *)
Record float_ops := FloatOps {
  fnum : Type;
  price_times : Z -> Z -> fnum;
  format_2f : fnum -> string
}.

Definition int_too_large_for_float (q : Z) : bool :=
  (2 ^ 1024 - 2 ^ 970 <=? Z.abs q)%Z.

Section Server.
Context (F : float_ops).

Record order := Order {
  order_id : string;
  medicine : string;
  dosage : string;
  quantity : Z;
  patient_id : string;
  unit_price : Z;
  total_price : fnum F;
  status : string;
  created_at : string
}.

Definition ledger := list order.

(** [found_med["price"] * quantity]. *)
Definition times (unit : Z) (qty : Z) : Handler.t ledger (fnum F) :=
  if int_too_large_for_float qty then Handler.raise OverflowError
  else Handler.ret (price_times F unit qty).

Definition order_placed_text (o : order) : string :=
  "ORDER PLACED" ++ PyStr.nl
  ++ "Order ID: " ++ order_id o ++ PyStr.nl
  ++ "Medicine: " ++ medicine o ++ " " ++ dosage o ++ PyStr.nl
  ++ "Quantity: " ++ PyStr.of_Z (quantity o) ++ " units" ++ PyStr.nl
  ++ "Total: $" ++ format_2f F (total_price o) ++ PyStr.nl
  ++ "Status: " ++ status o.

(** [now] is what [datetime.now().isoformat()] reads during this call. *)
Definition place_order (medicine_name dose : string) (qty : Z)
    (patient : string) (now : string) : Handler.t ledger tool_result :=
  match found_med medicine_name with
  | None =>
      Handler.ret (error_result ("Order Failed: " ++ medicine_name ++ " not found."))
  | Some med =>
      if negb (PyStr.mem dose (dosages med)) then
        Handler.ret (error_result ("Order Failed: " ++ dose ++ " not valid for "
                                   ++ name med ++ "."))
      else
        orders <- Handler.get ;;
        total <- times (price med) qty ;;
        let o := {| order_id := "ORD-" ++ PyStr.of_nat (List.length orders + 1001);
                    medicine := name med;
                    dosage := dose;
                    quantity := qty;
                    patient_id := patient;
                    unit_price := price med;
                    total_price := total;
                    status := "PENDING_PHYSICIAN_APPROVAL";
                    created_at := now |} in
        Handler.put (orders ++ [o])%list ;;;
        Handler.ret (ok_result (order_placed_text o))
  end.

Definition order_status_text (o : order) : string :=
  "Order " ++ order_id o ++ ": " ++ medicine o ++ " " ++ dosage o
  ++ " x" ++ PyStr.of_Z (quantity o) ++ " - " ++ status o.

Fixpoint scan_orders (orders : ledger) (oid : string) : tool_result :=
  match orders with
  | [] => error_result ("Order " ++ oid ++ " not found.")
  | o :: rest =>
      if String.eqb (order_id o) oid then ok_result (order_status_text o)
      else scan_orders rest oid
  end.

Definition get_order_status (oid : string) : Handler.t ledger tool_result :=
  orders <- Handler.get ;;
  Handler.ret (scan_orders orders oid).

(** ** handle_tool_call

    The [arguments] object, read through [.get] only: each key the
    handlers look up is absent or holds a value of its schema type. *)
Record arguments := Arguments_ {
  arg_query : option string;
  arg_medicine_name : option string;
  arg_dosage : option string;
  arg_quantity : option Z;
  arg_patient_id : option string;
  arg_medicines : option (list string);
  arg_order_id : option string
}.

Definition no_arguments : arguments :=
  Arguments_ None None None None None None None.

(** [d.get(key, default)]. *)
Definition get_or {A} (field : option A) (default : A) : A :=
  match field with
  | Some v => v
  | None => default
  end.

Definition handle_tool_call (tool : string) (args : arguments) (now : string)
  : Handler.t ledger tool_result :=
  if String.eqb tool "search_medicines" then
    Handler.ret (search_medicines (get_or (arg_query args) ""))
  else if String.eqb tool "check_availability" then
    Handler.ret (check_availability (get_or (arg_medicine_name args) "")
                                    (arg_dosage args))
  else if String.eqb tool "place_order" then
    place_order (get_or (arg_medicine_name args) "")
                (get_or (arg_dosage args) "")
                (get_or (arg_quantity args) 30%Z)
                (get_or (arg_patient_id args) "UNKNOWN")
                now
  else if String.eqb tool "check_drug_interactions" then
    Handler.ret (check_drug_interactions (get_or (arg_medicines args) []))
  else if String.eqb tool "get_order_status" then
    get_order_status (get_or (arg_order_id args) "")
  else
    Handler.ret (error_result ("Unknown tool: " ++ tool)).

End Server.

(** ** Tool descriptors *)

Record property := Property {
  prop_name : string;
  prop_type : string;
  prop_items : option string;
  prop_description : string
}.

Record tool_descriptor := Tool {
  tool_name : string;
  tool_description : string;
  properties : list property;
  required : list string
}.

Definition TOOLS : list tool_descriptor :=
  [ Tool "search_medicines"
      "Search for available medicines by name or category. Returns matching medicines with dosages and pricing."
      [ Property "query" "string" None
          "Medicine name or category to search for (e.g., 'metformin', 'NSAID', 'blood pressure')" ]
      [ "query" ];
    Tool "check_availability"
      "Check if a specific medicine is available in stock and get detailed pricing information."
      [ Property "medicine_name" "string" None
          "Name of the medicine to check (e.g., 'lisinopril', 'metformin')";
        Property "dosage" "string" None
          "Optional: Specific dosage to check (e.g., '10mg', '500mg')" ]
      [ "medicine_name" ];
    Tool "place_order"
      "Place an order for a medicine. Orders require physician approval before dispensing."
      [ Property "medicine_name" "string" None "Name of the medicine to order";
        Property "dosage" "string" None "Dosage strength (e.g., '10mg', '500mg')";
        Property "quantity" "integer" None "Number of units to order (default: 30)";
        Property "patient_id" "string" None "Patient identifier for the order" ]
      [ "medicine_name"; "dosage"; "quantity" ];
    Tool "check_drug_interactions"
      "Check for potential drug interactions between multiple medicines. Important for patient safety."
      [ Property "medicines" "array" (Some "string")
          "List of medicine names to check for interactions" ]
      [ "medicines" ];
    Tool "get_order_status"
      "Check the status of a medicine order by order ID."
      [ Property "order_id" "string" None
          "The order ID to check (e.g., 'ORD-1001')" ]
      [ "order_id" ] ].

(** ** handle_mcp_request *)

Record server_info := ServerInfo {
  server_name : string;
  version : string;
  server_description : string
}.

(** The four shapes of [result]. *)
Inductive rpc_result :=
| InitializeResult (protocolVersion : string) (serverInfo : server_info)
| ToolsResult (tools : list tool_descriptor)
| CallResult (r : tool_result)
| ErrorObject (code : Z) (message : string).

Section Dispatcher.
Context (F : float_ops).
(** [J] is the type of the JSON values a request may carry as its id;
    the id [None] is Python's [None]: the key is absent, or null. *)
Context (J : Type).

Record params := Params {
  param_name : option string;
  param_arguments : option arguments
}.

(** The parsed request object, read through [.get] only. *)
Record body := Body {
  body_method : option string;
  body_params : option params;
  body_id : option J
}.

Record message := Message {
  jsonrpc : string;
  id : option J;
  result : rpc_result
}.

(** What the client gets: the 400 of an unparseable request, the event
    stream (status 200) carrying one message, or the fault of a handler
    exception that nothing catches. *)
Inductive response :=
| BadRequest
| EventStream (http_status : Z) (event : message)
| Fault (e : exn).

Definition method_result (method : string) (ps : params) (now : string)
  : Handler.t (ledger F) rpc_result :=
  if String.eqb method "initialize" then
    Handler.ret (InitializeResult "2024-11-05"
                   (ServerInfo "medicine-order-server" "1.0.0"
                      "Medicine ordering and drug interaction checking"))
  else if String.eqb method "tools/list" then
    Handler.ret (ToolsResult TOOLS)
  else if String.eqb method "tools/call" then
    r <- handle_tool_call F (get_or (param_name ps) "")
                          (get_or (param_arguments ps) no_arguments) now ;;
    Handler.ret (CallResult r)
  else
    Handler.ret (ErrorObject (-32601) ("Unknown method: " ++ method)).

(** [parsed] is [None] when [request.json()] raises. *)
Definition handle_mcp_request (parsed : option body) (now : string)
    (orders : ledger F) : response * ledger F :=
  match parsed with
  | None => (BadRequest, orders)
  | Some b =>
      let method := get_or (body_method b) "" in
      let ps := get_or (body_params b) (Params None None) in
      let request_id := body_id b in
      match method_result method ps now orders with
      | (Returned res, orders') =>
          (EventStream 200 (Message "2.0" request_id res), orders')
      | (Raised e, orders') => (Fault e, orders')
      end
  end.

End Dispatcher.

Arguments Body {J} _ _ _.
Arguments Message {J} _ _ _.
Arguments BadRequest {J}.
Arguments EventStream {J} _ _.
Arguments Fault {J} _.

(** Exact decimal arithmetic on cents, an instance of the float operations
    on which the handlers can be run. *)
Definition decimal_ops : float_ops := FloatOps Z Z.mul price_2f.

(** ** Sessions

    A session is a sequence of tool calls against one ledger; each call
    carries the clock reading it would see. *)

Section Sessions.
Context (F : float_ops).

Record tool_call := Call {
  call_tool : string;
  call_arguments : arguments;
  call_now : string
}.

Definition step (c : tool_call) : Handler.t (ledger F) tool_result :=
  handle_tool_call F (call_tool c) (call_arguments c) (call_now c).

Definition run (calls : list tool_call) (orders : ledger F) : ledger F :=
  fold_left (fun s c => snd (step c s)) calls orders.

(** The error flag of an outcome; an exception carries none. *)
Definition flagged (out : outcome tool_result) : bool :=
  match out with
  | Returned r => isError r
  | Raised _ => false
  end.

Definition succeeded (out : outcome tool_result) : bool :=
  match out with
  | Returned r => negb (isError r)
  | Raised _ => false
  end.

(** A call is a successful [place_order]. *)
Definition order_placed (c : tool_call) (orders : ledger F) : bool :=
  String.eqb (call_tool c) "place_order" && succeeded (fst (step c orders)).

Fixpoint placed_count (calls : list tool_call) (orders : ledger F) : nat :=
  match calls with
  | [] => 0
  | c :: rest =>
      (if order_placed c orders then 1 else 0)
      + placed_count rest (snd (step c orders))
  end.

(** [ORD-1001], [ORD-1002], ... *)
Definition nth_order_id (k : nat) : string := "ORD-" ++ PyStr.of_nat (1000 + k).

(** The ledger invariant: the ids are [ORD-1001], [ORD-1002], ... in
    append order. *)
Definition ids_sequential (orders : ledger F) : Prop :=
  map (order_id F) orders = map nth_order_id (seq 1 (List.length orders)).

End Sessions.

(** ** Notions for the further properties *)

(** Some search term matches the entry: the test of lines 138-139 over the
    whole inner loop. *)
Definition query_matches (terms : list string) (entry : string * MedicineRecord)
  : bool :=
  existsb (fun term => term_matches term entry) terms.

(** An order as [place_order] writes it: the name, a dosage and the price of
    one catalogue record, the product of that price and the quantity, a
    quantity a double can hold, and the initial status. *)
Definition order_from_catalogue (F : float_ops) (o : order F) : Prop :=
  exists key med,
    In (key, med) MEDICINES
    /\ medicine F o = name med
    /\ In (dosage F o) (dosages med)
    /\ unit_price F o = price med
    /\ total_price F o = price_times F (price med) (quantity F o)
    /\ (Z.abs (quantity F o) < 2 ^ 1024 - 2 ^ 970)%Z
    /\ status F o = "PENDING_PHYSICIAN_APPROVAL".

(** What a reported interaction says apart from the displayed pair. *)
Definition finding (x : interaction) : string * string :=
  (severity x, description x).

Definition rule_finding (r : rule) : string * string :=
  (rule_severity r, rule_description r).

(** The two tests of lines 228 and 230 together. *)
Definition rule_applies (r : rule) (med1 med2 : string) : bool :=
  either_in (drug1 r) med1 && either_in (drug2 r) med2
  || either_in (drug2 r) med1 && either_in (drug1 r) med2.

(** One string contains the other. *)
Definition either_contains (a b : string) : Prop :=
  PyStr.substring_of a b \/ PyStr.substring_of b a.

(** The text of lines 151-159 for a list of results. *)
Definition search_text (query : string) (results : list search_hit)
  : tool_result :=
  match results with
  | [] => ok_result ("No medicines found matching '" ++ query ++ "'.")
  | _ :: _ =>
      ok_result ("Found " ++ PyStr.of_nat (List.length results)
                 ++ " medicine(s) matching '" ++ query ++ "':" ++ PyStr.nl ++ PyStr.nl
                 ++ search_lines 1 results)
  end.

(** The text of lines 232-239 for the list of matches that is printed. *)
Definition report_text (medicines : list string) (report : list interaction)
  : tool_result :=
  match report with
  | [] => ok_result ("No known interactions found between: "
                     ++ PyStr.join ", " medicines)
  | _ :: _ =>
      ok_result ("Drug Interaction Check for: " ++ PyStr.join ", " medicines
                 ++ PyStr.nl ++ PyStr.nl ++ interaction_lines report)
  end.

(** * Properties *)

(** ** Substring tests decide what they should *)

Lemma startswith_spec (p s : string) :
  PyStr.startswith p s = true <-> exists r, s = p ++ r.
Proof.
  revert s; induction p as [|a p IH]; intros s; simpl.
  - split; [intros _; now exists s | reflexivity].
  - destruct s as [|b s]; simpl.
    + split; [discriminate | intros [r Hr]; discriminate].
    + rewrite andb_true_iff, Ascii.eqb_eq, IH. split.
      * intros [-> [r ->]]. now exists r.
      * intros [r Hr]. injection Hr as -> ->. split; [reflexivity | now exists r].
Qed.

Lemma contains_spec (sub s : string) :
  PyStr.contains sub s = true <-> PyStr.substring_of sub s.
Proof.
  unfold PyStr.substring_of.
  induction s as [|c t IH].
  - cbn [PyStr.contains]. rewrite orb_false_r, startswith_spec. split.
    + intros [r Hr]. now exists "", r.
    + intros [l [r Hr]]. destruct l; [now exists r | discriminate].
  - cbn [PyStr.contains]. rewrite orb_true_iff, startswith_spec, IH. split.
    + intros [[r Hr] | [l [r Hr]]].
      * now exists "", r.
      * exists (String c l), r. simpl. now rewrite Hr.
    + intros [[|c' l] [r Hr]].
      * left. now exists r.
      * right. injection Hr as -> ->. now exists l, r.
Qed.

Lemma append_cancel_l (p a b : string) : p ++ a = p ++ b -> a = b.
Proof.
  induction p as [|c p IH]; simpl; intros H; [exact H|].
  injection H as H. auto.
Qed.

Lemma contains_empty (s : string) : PyStr.contains "" s = true.
Proof. destruct s; reflexivity. Qed.

Lemma mem_spec (x : string) (l : list string) :
  PyStr.mem x l = true <-> In x l.
Proof.
  unfold PyStr.mem. rewrite existsb_exists. split.
  - intros (y & Hy & E). apply String.eqb_eq in E. now subst.
  - intros H. exists x. split; [assumption | apply String.eqb_refl].
Qed.

Lemma mem_false (x : string) (l : list string) :
  PyStr.mem x l = false <-> ~ In x l.
Proof. rewrite <- mem_spec. now destruct (PyStr.mem x l). Qed.

(** ** Name resolution picks the first containing entry *)


Lemma key_matches_spec (mk : string) (entry : string * MedicineRecord) :
  key_matches mk entry = true <-> entry_matches mk entry.
Proof.
  unfold key_matches, entry_matches.
  now rewrite orb_true_iff, !contains_spec.
Qed.

Lemma first_match_spec (mk : string) (catalog : list (string * MedicineRecord)) :
  match first_match mk catalog with
  | Some m =>
      exists pre key post,
        catalog = (pre ++ (key, m) :: post)%list
        /\ entry_matches mk (key, m)
        /\ Forall (fun e => ~ entry_matches mk e) pre
  | None => Forall (fun e => ~ entry_matches mk e) catalog
  end.
Proof.
  induction catalog as [|[key m] rest IH]; simpl.
  - constructor.
  - destruct (key_matches mk (key, m)) eqn:E.
    + exists [], key, rest. repeat split; [now apply key_matches_spec | constructor].
    + assert (Hno : ~ entry_matches mk (key, m)).
      { rewrite <- key_matches_spec, E. discriminate. }
      destruct (first_match mk rest) as [m'|].
      * destruct IH as (pre & key' & post & -> & Hm & Hpre).
        exists ((key, m) :: pre), key', post. repeat split; auto.
      * now constructor.
Qed.

(** In the catalogue every lookup key is the normalised display name. *)
Lemma catalogue_keys_normalised :
  Forall (fun e => PyStr.remove_spaces (PyStr.lower (name (snd e))) = fst e)
         MEDICINES.
Proof. repeat constructor. Qed.

Lemma entry_matches_key (mk : string) (e : string * MedicineRecord) :
  In e MEDICINES -> (entry_matches mk e <-> PyStr.substring_of mk (fst e)).
Proof.
  intros Hin. unfold entry_matches.
  pose proof catalogue_keys_normalised as H.
  rewrite Forall_forall in H. rewrite (H e Hin). tauto.
Qed.


(** C1, as stated, fails: containment is tested in one direction only.  The
    catalogue key [lisinopril] is a substring of the normalised input
    [lisinopril10mg], so the claimed resolver answers Lisinopril, while the
    loop of [check_availability] and [place_order] finds nothing.  Nor is
    whitespace other than the space character removed: a name followed by a
    tab resolves to nothing. *)
Lemma found_med_not_bidirectional :
  let lisinopril :=
    Medicine "Lisinopril" ["5mg"; "10mg"; "20mg"] 1599 "ACE Inhibitor" in
  let tab := String (ascii_of_nat 9) EmptyString in
  found_med "Lisinopril10mg" = None
  /\ ClaimedResolver.resolve "Lisinopril10mg" = Some lisinopril
  /\ found_med ("lisinopril" ++ tab) = None
  /\ ClaimedResolver.resolve ("lisinopril" ++ tab) = Some lisinopril.
Proof. cbv zeta. repeat split. Qed.

(** C1 (amended): for every input string, name resolution lower-cases the
    input and removes its space characters, and returns the first catalogue
    entry, in catalogue order, whose lookup key contains the normalised input
    as a substring; it finds nothing exactly when no key contains it. *)
Theorem found_med_first_containing (medicine_name : string) :
  match found_med medicine_name with
  | Some m =>
      exists pre key post,
        MEDICINES = (pre ++ (key, m) :: post)%list
        /\ PyStr.substring_of (med_key medicine_name) key
        /\ Forall (fun e => ~ PyStr.substring_of (med_key medicine_name) (fst e)) pre
  | None =>
      Forall (fun e => ~ PyStr.substring_of (med_key medicine_name) (fst e))
             MEDICINES
  end.
Proof.
  unfold found_med.
  pose proof (first_match_spec (med_key medicine_name) MEDICINES) as H.
  destruct (first_match (med_key medicine_name) MEDICINES) as [m|].
  - destruct H as (pre & key & post & Hcat & Hm & Hpre).
    exists pre, key, post. split; [exact Hcat|]. split.
    + apply (entry_matches_key _ (key, m)); [|exact Hm].
      rewrite Hcat. apply in_elt.
    + rewrite Forall_forall in *. intros e He Hsub.
      apply (Hpre e He). apply entry_matches_key; [|exact Hsub].
      rewrite Hcat. apply in_or_app. now left.
  - rewrite Forall_forall in *. intros e He Hsub.
    apply (H e He). now apply entry_matches_key.
Qed.

(** ** The ledger: what [place_order] does to it *)

Section LedgerFacts.
Context (F : float_ops).

Lemma place_order_cases (n d : string) (q : Z) (p now : string) (orders : ledger F) :
  (exists r, place_order F n d q p now orders = (Returned r, orders)
             /\ isError r = true
             /\ (found_med n = None
                 \/ exists med, found_med n = Some med
                                /\ PyStr.mem d (dosages med) = false))
  \/ (place_order F n d q p now orders = (Raised OverflowError, orders)
      /\ int_too_large_for_float q = true
      /\ exists med, found_med n = Some med /\ PyStr.mem d (dosages med) = true)
  \/ (exists med o,
        found_med n = Some med
        /\ PyStr.mem d (dosages med) = true
        /\ int_too_large_for_float q = false
        /\ place_order F n d q p now orders
           = (Returned (ok_result (order_placed_text F o)), (orders ++ [o])%list)
        /\ order_id F o = "ORD-" ++ PyStr.of_nat (List.length orders + 1001)
        /\ medicine F o = name med
        /\ dosage F o = d
        /\ quantity F o = q
        /\ status F o = "PENDING_PHYSICIAN_APPROVAL").
Proof.
  unfold place_order.
  destruct (found_med n) as [med|] eqn:Hf.
  - destruct (PyStr.mem d (dosages med)) eqn:Hd; cbn [negb].
    + unfold Handler.bind, Handler.get, Handler.put, Handler.ret, times.
      destruct (int_too_large_for_float q) eqn:Hq; unfold Handler.raise, Handler.ret.
      * right; left. split; [reflexivity|]. split; [reflexivity|].
        exists med. now split.
      * right; right. eexists med, _.
        split; [reflexivity|]. split; [exact Hd|]. split; [reflexivity|].
        split; [reflexivity|]. repeat split.
    + left. eexists. split; [reflexivity|]. split; [reflexivity|].
      right. exists med. now split.
  - left. eexists. split; [reflexivity|]. split; [reflexivity|]. now left.
Qed.

(** A tool call either is a successful [place_order], and appends one
    order numbered by the ledger's length, or leaves the ledger as it is. *)
Lemma step_cases (c : tool_call) (orders : ledger F) :
  (order_placed F c orders = false /\ snd (step F c orders) = orders)
  \/ (order_placed F c orders = true
      /\ exists o, snd (step F c orders) = (orders ++ [o])%list
                   /\ order_id F o
                      = "ORD-" ++ PyStr.of_nat (List.length orders + 1001)).
Proof.
  destruct c as [tool args now].
  unfold order_placed, step, handle_tool_call; cbn [call_tool call_arguments call_now].
  destruct (String.eqb tool "search_medicines") eqn:E1;
    [apply String.eqb_eq in E1; subst tool; left; split; reflexivity|].
  destruct (String.eqb tool "check_availability") eqn:E2;
    [apply String.eqb_eq in E2; subst tool; left; split; reflexivity|].
  destruct (String.eqb tool "place_order") eqn:E3.
  - cbn [andb].
    destruct (place_order_cases
                (get_or (arg_medicine_name args) "") (get_or (arg_dosage args) "")
                (get_or (arg_quantity args) 30%Z)
                (get_or (arg_patient_id args) "UNKNOWN") now orders)
      as [(r & -> & Hr & _) | [(-> & _) | (med & o & _ & _ & _ & -> & Hid & _)]].
    + left. cbn. now rewrite Hr.
    + left. split; reflexivity.
    + right. split; [reflexivity|]. now exists o.
  - cbn [andb]. left. split; [reflexivity|].
    destruct (String.eqb tool "check_drug_interactions"); [reflexivity|].
    destruct (String.eqb tool "get_order_status"); reflexivity.
Qed.


Lemma ids_sequential_snoc (orders : ledger F) (o : order F) :
  ids_sequential F orders ->
  order_id F o = "ORD-" ++ PyStr.of_nat (List.length orders + 1001) ->
  ids_sequential F (orders ++ [o])%list.
Proof.
  unfold ids_sequential. intros Hinv Hid.
  rewrite length_app, Nat.add_1_r, seq_S, !map_app, Hinv. cbn [map List.length].
  rewrite Hid. unfold nth_order_id.
  now replace (List.length orders + 1001) with (1000 + (1 + List.length orders)) by lia.
Qed.

Lemma run_invariant (calls : list tool_call) (orders : ledger F) :
  ids_sequential F orders ->
  List.length (run F calls orders)
  = List.length orders + placed_count F calls orders
  /\ ids_sequential F (run F calls orders)
  /\ exists later, run F calls orders = (orders ++ later)%list.
Proof.
  revert orders. induction calls as [|c rest IH]; intros orders Hinv.
  - cbn. rewrite Nat.add_0_r. repeat split; [assumption|].
    exists []. now rewrite app_nil_r.
  - cbn [run fold_left placed_count]. fold (run F rest (snd (step F c orders))).
    destruct (step_cases c orders) as [[-> ->] | [-> (o & -> & Hid)]].
    + now apply IH.
    + destruct (IH (orders ++ [o])%list (ids_sequential_snoc _ _ Hinv Hid))
        as (Hlen & Hseq & later & Hlater).
      rewrite Hlen, length_app. cbn [List.length]. split; [lia|].
      split; [assumption|].
      exists (o :: later). now rewrite Hlater, <- app_assoc.
Qed.

Lemma of_nat_injective : Injective PyStr.of_nat.
Proof.
  intros a b H. unfold PyStr.of_nat in H.
  apply (f_equal NilEmpty.uint_of_string) in H.
  rewrite !NilEmpty.usu in H. injection H as H.
  apply (f_equal Nat.of_uint) in H.
  now rewrite !DecimalNat.Unsigned.of_to in H.
Qed.

Lemma nth_order_id_injective : Injective nth_order_id.
Proof.
  intros a b H. unfold nth_order_id in H.
  apply append_cancel_l, of_nat_injective in H. lia.
Qed.

Lemma ids_sequential_NoDup (orders : ledger F) :
  ids_sequential F orders -> NoDup (map (order_id F) orders).
Proof.
  unfold ids_sequential. intros ->.
  apply Injective_map_NoDup; [exact nth_order_id_injective | apply seq_NoDup].
Qed.

End LedgerFacts.

(** C2: after any sequence of tool calls, started on the empty ledger, of
    which N are successful [place_order] calls, the ledger holds exactly N
    orders and their ids are, in append order, ORD-1001, ..., ORD-(1000+N);
    no id occurs twice. *)
Theorem order_ids_gap_free (F : float_ops) (calls : list tool_call) :
  List.length (run F calls []) = placed_count F calls []
  /\ map (order_id F) (run F calls [])
     = map (fun k => "ORD-" ++ PyStr.of_nat (1000 + k))
           (seq 1 (placed_count F calls []))
  /\ NoDup (map (order_id F) (run F calls [])).
Proof.
  assert (H0 : ids_sequential F []) by reflexivity.
  destruct (run_invariant F calls [] H0) as (Hlen & Hseq & _).
  cbn [List.length Nat.add] in Hlen.
  split; [exact Hlen|]. split.
  - rewrite <- Hlen. exact Hseq.
  - now apply ids_sequential_NoDup.
Qed.

(** ** Failed orders leave no trace *)

(** C3: when the name does not resolve, or the dosage is not one of the
    resolved record's dosages, [place_order] returns an error-flagged result
    and the ledger is unchanged; whatever its arguments, [place_order] either
    leaves the ledger as it was or appends one order and reports success; and
    no other tool, nor an unknown tool name, changes the ledger. *)
Theorem place_order_atomic (F : float_ops) :
  (forall n d q p now (orders : ledger F),
      found_med n = None
      \/ (exists med, found_med n = Some med /\ ~ In d (dosages med)) ->
      exists r, place_order F n d q p now orders = (Returned r, orders)
                /\ isError r = true)
  /\ (forall n d q p now (orders : ledger F),
        snd (place_order F n d q p now orders) = orders
        \/ exists o, place_order F n d q p now orders
                     = (Returned (ok_result (order_placed_text F o)),
                        (orders ++ [o])%list))
  /\ (forall tool args now (orders : ledger F),
        tool <> "place_order" ->
        snd (handle_tool_call F tool args now orders) = orders)
  /\ (forall oid (orders : ledger F),
        snd (get_order_status F oid orders) = orders).
Proof.
  split; [|split; [|split]].
  - intros n d q p now orders H.
    destruct (place_order_cases F n d q p now orders)
      as [(r & Hr & He & _) | [(_ & _ & med & Hf & Hd) | (med & o & Hf & Hd & _)]].
    + now exists r.
    + destruct H as [H | (med' & H & Hd')]; [congruence|].
      apply mem_false in Hd'. congruence.
    + destruct H as [H | (med' & H & Hd')]; [congruence|].
      apply mem_false in Hd'. congruence.
  - intros n d q p now orders.
    destruct (place_order_cases F n d q p now orders)
      as [(r & -> & _) | [(-> & _) | (med & o & _ & _ & _ & -> & _)]].
    + now left.
    + now left.
    + right. now exists o.
  - intros tool args now orders Hne.
    apply String.eqb_neq in Hne.
    unfold handle_tool_call. rewrite Hne.
    repeat match goal with
           | |- context [if ?b then _ else _] => destruct b
           end; reflexivity.
  - reflexivity.
Qed.

Lemma place_order_atomic_witness :
  (exists r, place_order decimal_ops "zzz" "5mg" 30 "P1" "t" []
             = (Returned r, []) /\ isError r = true)
  /\ snd (handle_tool_call decimal_ops "get_order_status" no_arguments "t" []) = [].
Proof.
  split.
  - apply (proj1 (place_order_atomic decimal_ops)). left. reflexivity.
  - apply (proj1 (proj2 (proj2 (place_order_atomic decimal_ops)))). discriminate.
Defined.

(** ** Looking an order up *)

Section Lookup.
Context (F : float_ops).

Lemma scan_orders_missing (orders : ledger F) (oid : string) :
  ~ In oid (map (order_id F) orders) ->
  scan_orders F orders oid = error_result ("Order " ++ oid ++ " not found.").
Proof.
  induction orders as [|o rest IH]; intros Hnot; cbn [scan_orders]; [reflexivity|].
  destruct (String.eqb (order_id F o) oid) eqn:E.
  - apply String.eqb_eq in E. exfalso. apply Hnot. now left.
  - apply IH. intros Hin. apply Hnot. now right.
Qed.

Lemma scan_orders_present (orders : ledger F) (oid : string) :
  In oid (map (order_id F) orders) ->
  exists o, In o orders /\ order_id F o = oid
            /\ scan_orders F orders oid = ok_result (order_status_text F o).
Proof.
  induction orders as [|o rest IH]; intros Hin; [contradiction|].
  cbn [scan_orders].
  destruct (String.eqb (order_id F o) oid) eqn:E.
  - apply String.eqb_eq in E. exists o. repeat split; [now left | assumption].
  - apply String.eqb_neq in E. destruct Hin as [Hin | Hin]; [contradiction|].
    destruct (IH Hin) as (o' & Ho' & Hid & Hs).
    exists o'. repeat split; [now right | assumption | assumption].
Qed.

(** With distinct ids the scan returns the order that carries the id. *)
Lemma scan_orders_found (orders : ledger F) (o : order F) :
  NoDup (map (order_id F) orders) -> In o orders ->
  scan_orders F orders (order_id F o) = ok_result (order_status_text F o).
Proof.
  induction orders as [|o' rest IH]; intros Hnd Hin; [contradiction|].
  cbn [scan_orders]. cbn [map] in Hnd. inversion Hnd as [|? ? Hnotin Hnd']; subst.
  destruct Hin as [-> | Hin].
  - now rewrite String.eqb_refl.
  - destruct (String.eqb (order_id F o') (order_id F o)) eqn:E.
    + apply String.eqb_eq in E. exfalso. apply Hnotin. rewrite E. now apply in_map.
    + now apply IH.
Qed.

Lemma scan_orders_flag (orders : ledger F) (oid : string) :
  isError (scan_orders F orders oid) = true
  <-> ~ In oid (map (order_id F) orders).
Proof.
  split.
  - intros He Hin. destruct (scan_orders_present orders oid Hin) as (o & _ & _ & Hs).
    rewrite Hs in He. discriminate.
  - intros Hnot. now rewrite scan_orders_missing.
Qed.

End Lookup.

(** C9: [get_order_status] answers the error-flagged "not found" result
    whenever no order of the ledger carries the id; and once a [place_order]
    has succeeded in a session, then after any further calls the status
    lookup of the id it issued returns, without error flag, the text made of
    the medicine name, dosage, quantity and status written into that order
    when it was created. *)
Theorem get_order_status_exact (F : float_ops) :
  (forall oid (orders : ledger F),
      ~ In oid (map (order_id F) orders) ->
      get_order_status F oid orders
      = (Returned (error_result ("Order " ++ oid ++ " not found.")), orders))
  /\ (forall before n d q p now r placed after,
        place_order F n d q p now (run F before []) = (Returned r, placed) ->
        isError r = false ->
        exists o med,
          placed = (run F before [] ++ [o])%list
          /\ found_med n = Some med
          /\ medicine F o = name med /\ dosage F o = d /\ quantity F o = q
          /\ status F o = "PENDING_PHYSICIAN_APPROVAL"
          /\ get_order_status F (order_id F o) (run F after placed)
             = (Returned
                  (ok_result
                     ("Order " ++ order_id F o ++ ": " ++ name med ++ " " ++ d
                      ++ " x" ++ PyStr.of_Z q ++ " - PENDING_PHYSICIAN_APPROVAL")),
                run F after placed)).
Proof.
  split.
  - intros oid orders Hnot. unfold get_order_status, Handler.bind, Handler.get, Handler.ret.
    now rewrite scan_orders_missing.
  - intros before n d q p now r placed after Hplace Hok.
    destruct (run_invariant F before [] eq_refl) as (_ & Hinv & _).
    destruct (place_order_cases F n d q p now (run F before []))
      as [(r' & Hr & He & _) | [(Hr & _) | (med & o & Hf & _ & _ & Hr & Hid & Hm & Hd & Hq & Hs)]].
    + rewrite Hr in Hplace. injection Hplace as -> _. congruence.
    + rewrite Hr in Hplace. discriminate.
    + rewrite Hr in Hplace. injection Hplace as _ <-.
      exists o, med. repeat split; try assumption.
      destruct (run_invariant F after _ (ids_sequential_snoc F _ _ Hinv Hid))
        as (_ & Hinv' & later & Hlater).
      unfold get_order_status, Handler.bind, Handler.get, Handler.ret.
      rewrite (scan_orders_found F _ o).
      * unfold order_status_text. now rewrite Hm, Hd, Hq, Hs.
      * now apply ids_sequential_NoDup.
      * rewrite Hlater. apply in_or_app. left. apply in_or_app. right. now left.
Qed.

Lemma get_order_status_exact_witness :
  get_order_status decimal_ops "ORD-1001" []
  = (Returned (error_result "Order ORD-1001 not found."), [])
  /\ exists o med,
       [Order decimal_ops "ORD-1001" "Metformin" "500mg" 30 "P1" 1250 37500%Z
              "PENDING_PHYSICIAN_APPROVAL" "t0"]
       = (run decimal_ops [] [] ++ [o])%list
       /\ found_med "metformin" = Some med
       /\ medicine decimal_ops o = name med
       /\ dosage decimal_ops o = "500mg"
       /\ quantity decimal_ops o = 30%Z
       /\ status decimal_ops o = "PENDING_PHYSICIAN_APPROVAL"
       /\ get_order_status decimal_ops (order_id decimal_ops o)
            (run decimal_ops
                 [Call "place_order"
                       (Arguments_ None (Some "metformin") (Some "999mg")
                                   (Some 30%Z) None None None) "t1"]
                 [Order decimal_ops "ORD-1001" "Metformin" "500mg" 30 "P1" 1250
                        37500%Z "PENDING_PHYSICIAN_APPROVAL" "t0"])
          = (Returned
               (ok_result
                  ("Order " ++ order_id decimal_ops o ++ ": " ++ name med ++ " "
                   ++ "500mg" ++ " x" ++ PyStr.of_Z 30
                   ++ " - PENDING_PHYSICIAN_APPROVAL")),
             run decimal_ops
                 [Call "place_order"
                       (Arguments_ None (Some "metformin") (Some "999mg")
                                   (Some 30%Z) None None None) "t1"]
                 [Order decimal_ops "ORD-1001" "Metformin" "500mg" 30 "P1" 1250
                        37500%Z "PENDING_PHYSICIAN_APPROVAL" "t0"]).
Proof.
  split.
  - apply (proj1 (get_order_status_exact decimal_ops)). intros [].
  - apply (proj2 (get_order_status_exact decimal_ops) [] "metformin" "500mg" 30%Z
                 "P1" "t0"
                 (ok_result (order_placed_text decimal_ops
                    (Order decimal_ops "ORD-1001" "Metformin" "500mg" 30 "P1" 1250
                           37500%Z "PENDING_PHYSICIAN_APPROVAL" "t0")))).
    + vm_compute. reflexivity.
    + reflexivity.
Defined.

(** ** Which results carry the error flag *)

(** C4: [search_medicines] and [check_availability] (and
    [check_drug_interactions]) return a result without the error flag on
    every input; among the five tool handlers the flag is set exactly by
    [place_order] on a name that does not resolve or on a dosage that is
    not one of the resolved record's, and by [get_order_status] on an id no
    order of the ledger carries. *)
Theorem error_flag_exactly (F : float_ops) :
  (forall query, isError (search_medicines query) = false)
  /\ (forall medicine_name dosage,
        isError (check_availability medicine_name dosage) = false)
  /\ (forall medicines, isError (check_drug_interactions medicines) = false)
  /\ (forall n d q p now (orders : ledger F),
        flagged (fst (place_order F n d q p now orders)) = true
        <-> found_med n = None
            \/ exists med, found_med n = Some med /\ ~ In d (dosages med))
  /\ (forall oid (orders : ledger F),
        flagged (fst (get_order_status F oid orders)) = true
        <-> ~ In oid (map (order_id F) orders)).
Proof.
  split; [|split; [|split; [|split]]].
  - intros query. unfold search_medicines.
    now destruct (search_results query).
  - intros medicine_name dosage. unfold check_availability.
    destruct (found_med medicine_name) as [med|]; [|reflexivity].
    destruct dosage as [d|]; [|reflexivity].
    now destruct (negb (String.eqb d "") && negb (PyStr.mem d (dosages med))).
  - intros medicines. unfold check_drug_interactions.
    now destruct (found_interactions medicines).
  - intros n d q p now orders.
    destruct (place_order_cases F n d q p now orders)
      as [(r & -> & Hr & Hwhy) | [(-> & _ & med & Hf & Hd) | (med & o & Hf & Hd & _ & -> & _)]];
      cbn [fst flagged].
    + split; [intros _ | intros _; exact Hr].
      destruct Hwhy as [Hn | (med & Hf & Hd)]; [now left|].
      right. exists med. split; [assumption | now apply mem_false].
    + split; [discriminate|].
      intros [Hn | (med' & Hf' & Hd')]; [congruence|].
      apply mem_false in Hd'. congruence.
    + split; [discriminate|].
      intros [Hn | (med' & Hf' & Hd')]; [congruence|].
      apply mem_false in Hd'. congruence.
  - intros oid orders. apply scan_orders_flag.
Qed.

Lemma error_flag_exactly_witness :
  flagged (fst (place_order decimal_ops "metformin" "999mg" 30 "P1" "t" [])) = true
  /\ ~ In "ORD-1001" (map (order_id decimal_ops) []).
Proof.
  split.
  - apply (proj1 (proj2 (proj2 (proj2 (error_flag_exactly decimal_ops))))).
    right. exists (Medicine "Metformin" ["500mg"; "850mg"; "1000mg"] 1250 "Antidiabetic").
    split; [reflexivity|]. apply mem_false. reflexivity.
  - apply (proj2 (proj2 (proj2 (proj2 (error_flag_exactly decimal_ops))))).
    reflexivity.
Defined.

(** ** The interaction check *)

(** C5: the check of lisinopril with losartan reports, in either input
    order, exactly one match, of severity SEVERE and with the same
    description; only the displayed pair follows the input order. *)
Theorem interaction_check_symmetric :
  let warning := "Do NOT combine ACE inhibitors with ARBs - increased risk of hyperkalemia and kidney damage" in
  sorted_interactions ["lisinopril"; "losartan"]
  = [Interaction "lisinopril + losartan" "SEVERE" warning]
  /\ sorted_interactions ["losartan"; "lisinopril"]
     = [Interaction "losartan + lisinopril" "SEVERE" warning]
  /\ check_drug_interactions ["lisinopril"; "losartan"]
     = ok_result ("Drug Interaction Check for: lisinopril, losartan"
                  ++ PyStr.nl ++ PyStr.nl
                  ++ "[SEVERE] lisinopril + losartan: " ++ warning
                  ++ PyStr.nl ++ PyStr.nl)
  /\ check_drug_interactions ["losartan"; "lisinopril"]
     = ok_result ("Drug Interaction Check for: losartan, lisinopril"
                  ++ PyStr.nl ++ PyStr.nl
                  ++ "[SEVERE] losartan + lisinopril: " ++ warning
                  ++ PyStr.nl ++ PyStr.nl).
Proof. cbv zeta. repeat split; vm_compute; reflexivity. Qed.

Section SortFacts.
Context {A : Type} (key : A -> nat).


Lemma insert_by_perm (x : A) (l : list A) :
  Permutation (x :: l) (insert_by key x l).
Proof.
  induction l as [|y t IH]; cbn [insert_by]; [reflexivity|].
  destruct (key x <=? key y)%nat; [reflexivity|].
  rewrite perm_swap. now constructor.
Qed.

Lemma sort_by_perm (l : list A) : Permutation l (sort_by key l).
Proof.
  induction l as [|x t IH]; cbn [sort_by]; [constructor|].
  rewrite <- insert_by_perm. now constructor.
Qed.

Lemma insert_by_Forall (P : A -> Prop) (x : A) (l : list A) :
  P x -> Forall P l -> Forall P (insert_by key x l).
Proof.
  intros Hx Hl. eapply Permutation_Forall; [apply insert_by_perm|].
  now constructor.
Qed.

Lemma insert_by_sorted (x : A) (l : list A) :
  StronglySorted (key_le key) l -> StronglySorted (key_le key) (insert_by key x l).
Proof.
  induction 1 as [|y t Hs IH Hall]; cbn [insert_by].
  - repeat constructor.
  - destruct (key x <=? key y)%nat eqn:E.
    + apply Nat.leb_le in E. constructor; [now constructor|].
      constructor; [exact E|].
      eapply Forall_impl; [|exact Hall]. unfold key_le. intros; lia.
    + apply Nat.leb_gt in E. constructor; [exact IH|].
      apply insert_by_Forall; [unfold key_le; lia | exact Hall].
Qed.

Lemma sort_by_sorted (l : list A) : StronglySorted (key_le key) (sort_by key l).
Proof.
  induction l as [|x t IH]; cbn [sort_by]; [constructor|].
  now apply insert_by_sorted.
Qed.

(** Insertion passes only elements of strictly smaller key, so within one
    key the new element goes to the front. *)
Lemma insert_by_filter (k : nat) (x : A) (l : list A) :
  filter (fun y => key y =? k)%nat (insert_by key x l)
  = filter (fun y => key y =? k)%nat (x :: l).
Proof.
  induction l as [|y t IH]; cbn [insert_by]; [reflexivity|].
  destruct (key x <=? key y)%nat eqn:E; [reflexivity|].
  apply Nat.leb_gt in E.
  cbn [filter] in *. rewrite IH.
  destruct (key x =? k)%nat eqn:Ex; [|reflexivity].
  apply Nat.eqb_eq in Ex.
  assert (Ey : (key y =? k)%nat = false) by (apply Nat.eqb_neq; lia).
  now rewrite Ey.
Qed.

Lemma sort_by_stable (k : nat) (l : list A) :
  filter (fun y => key y =? k)%nat (sort_by key l)
  = filter (fun y => key y =? k)%nat l.
Proof.
  induction l as [|x t IH]; cbn [sort_by]; [reflexivity|].
  rewrite insert_by_filter. cbn [filter]. now rewrite IH.
Qed.

End SortFacts.

Lemma severity_order_unranked (s : string) :
  s <> "SEVERE" -> s <> "MODERATE" -> s <> "MINOR" -> s <> "SAFE" ->
  severity_order s = 4.
Proof.
  intros H1 H2 H3 H4. unfold severity_order.
  apply String.eqb_neq in H1, H2, H3, H4.
  now rewrite H1, H2, H3, H4.
Qed.

Lemma insert_by_not_nil {A : Type} (key : A -> nat) (x : A) (l : list A) :
  insert_by key x l <> [].
Proof.
  destruct l as [|y t]; cbn [insert_by]; [discriminate|].
  destruct (key x <=? key y)%nat; discriminate.
Qed.

(** What the handler prints is the sorted list. *)
Lemma check_drug_interactions_report (medicines : list string) :
  check_drug_interactions medicines
  = report_text medicines (sorted_interactions medicines).
Proof.
  unfold check_drug_interactions, sorted_interactions.
  destruct (found_interactions medicines) as [|x t]; [reflexivity|].
  cbn [sort_by].
  destruct (insert_by (fun x0 => severity_order (severity x0)) x
              (sort_by (fun x0 => severity_order (severity x0)) t)) eqn:Ei.
  - now apply insert_by_not_nil in Ei.
  - reflexivity.
Qed.

(** C6: for every input list the matches that [check_drug_interactions]
    reports are the matches of the pairwise scan, rearranged so that the
    severity ranks never decrease (SEVERE 0, MODERATE 1, MINOR 2, SAFE 3,
    any other severity 4, hence last), and matches of one rank keep the
    order in which the scan produced them; the text the handler returns
    lists exactly this rearranged list, in this order. *)
Theorem interactions_sorted_stably (medicines : list string) :
  Permutation (found_interactions medicines) (sorted_interactions medicines)
  /\ StronglySorted
       (fun a b => severity_order (severity a) <= severity_order (severity b))
       (sorted_interactions medicines)
  /\ (forall k,
        filter (fun x => severity_order (severity x) =? k)%nat
               (sorted_interactions medicines)
        = filter (fun x => severity_order (severity x) =? k)%nat
                 (found_interactions medicines))
  /\ severity_order "SEVERE" = 0 /\ severity_order "MODERATE" = 1
  /\ severity_order "MINOR" = 2 /\ severity_order "SAFE" = 3
  /\ (forall s, s <> "SEVERE" -> s <> "MODERATE" -> s <> "MINOR" -> s <> "SAFE" ->
                severity_order s = 4)
  /\ check_drug_interactions medicines
     = match sorted_interactions medicines with
       | [] => ok_result ("No known interactions found between: "
                          ++ PyStr.join ", " medicines)
       | _ :: _ =>
           ok_result ("Drug Interaction Check for: " ++ PyStr.join ", " medicines
                      ++ PyStr.nl ++ PyStr.nl
                      ++ interaction_lines (sorted_interactions medicines))
       end.
Proof.
  split; [apply sort_by_perm|].
  split; [apply (sort_by_sorted (fun x => severity_order (severity x)))|].
  split; [intros k; apply sort_by_stable|].
  do 4 (split; [reflexivity|]).
  split; [exact severity_order_unranked|].
  apply check_drug_interactions_report.
Qed.

Lemma interactions_sorted_stably_witness :
  filter (fun x => severity_order (severity x) =? 1)%nat
         (sorted_interactions ["aspirin"; "ibuprofen"; "lisinopril"; "losartan"])
  = filter (fun x => severity_order (severity x) =? 1)%nat
           (found_interactions ["aspirin"; "ibuprofen"; "lisinopril"; "losartan"])
  /\ severity_order "UNKNOWN" = 4.
Proof.
  split.
  - apply (proj1 (proj2 (proj2 (interactions_sorted_stably
                                  ["aspirin"; "ibuprofen"; "lisinopril"; "losartan"])))).
  - apply (proj1 (proj2 (proj2 (proj2 (proj2 (proj2 (proj2 (proj2
             (interactions_sorted_stably []))))))))); discriminate.
Defined.

(** ** The dispatcher *)

Section DispatchFacts.
Context (F : float_ops) (J : Type).

(** Every parsed request is answered by an event stream of status 200
    whose message echoes the request id, unless the routed tool raises;
    and only [place_order] raises, on a quantity too large for a double. *)
Lemma handle_mcp_request_cases (b : body J) (now : string) (orders : ledger F) :
  match fst (handle_mcp_request F J (Some b) now orders) with
  | EventStream st m => st = 200%Z /\ jsonrpc J m = "2.0" /\ id J m = body_id J b
  | Fault e =>
      get_or (body_method J b) "" = "tools/call"
      /\ get_or (param_name (get_or (body_params J b) (Params None None))) ""
         = "place_order"
      /\ int_too_large_for_float
           (get_or (arg_quantity
                      (get_or (param_arguments
                                 (get_or (body_params J b) (Params None None)))
                              no_arguments))
                   30%Z) = true
  | BadRequest => False
  end.
Proof.
  unfold handle_mcp_request, method_result.
  destruct (String.eqb (get_or (body_method J b) "") "initialize"); [now cbn|].
  destruct (String.eqb (get_or (body_method J b) "") "tools/list"); [now cbn|].
  destruct (String.eqb (get_or (body_method J b) "") "tools/call") eqn:Em; [|now cbn].
  apply String.eqb_eq in Em.
  set (ps := get_or (body_params J b) (Params None None)).
  unfold Handler.bind, handle_tool_call.
  destruct (String.eqb (get_or (param_name ps) "") "search_medicines"); [now cbn|].
  destruct (String.eqb (get_or (param_name ps) "") "check_availability"); [now cbn|].
  destruct (String.eqb (get_or (param_name ps) "") "place_order") eqn:Et.
  - apply String.eqb_eq in Et.
    match goal with
    | |- context [place_order F ?n ?d ?q ?p now orders] =>
        destruct (place_order_cases F n d q p now orders)
          as [(r & -> & _) | [(-> & Hq & _) | (med & o & _ & _ & _ & -> & _)]]
    end; unfold Handler.ret; cbn [fst jsonrpc id]; auto.
  - destruct (String.eqb (get_or (param_name ps) "") "check_drug_interactions");
      [now cbn|].
    destruct (String.eqb (get_or (param_name ps) "") "get_order_status"); now cbn.
Qed.

End DispatchFacts.

(** C7 fails at one kind of request.  A [tools/call] of [place_order] whose
    name and dosage are valid and whose quantity is 2^1024 raises
    [OverflowError] while the order is being built (the product of the price
    and the quantity converts the integer to a double); nothing catches it,
    so no envelope is produced, whatever the request id.  The ledger is left
    as it was. *)
Theorem tools_call_overflow_no_envelope (F : float_ops) (J : Type)
    (request_id : option J) (now : string) (orders : ledger F) :
  handle_mcp_request F J
    (Some (Body (Some "tools/call")
                (Some (Params (Some "place_order")
                              (Some (Arguments_ None (Some "metformin") (Some "500mg")
                                                (Some (2 ^ 1024)%Z) None None None))))
                request_id))
    now orders
  = (Fault OverflowError, orders).
Proof. reflexivity. Qed.

(** C8: a request whose method is none of [initialize], [tools/list] and
    [tools/call] (a missing method counts as the empty string) is answered
    with status 200 by the envelope whose result is the error object of code
    -32601 and message "Unknown method: " followed by the method; the ledger
    is untouched. *)
Theorem unknown_method_error_object (F : float_ops) (J : Type)
    (b : body J) (now : string) (orders : ledger F) :
  get_or (body_method J b) "" <> "initialize" ->
  get_or (body_method J b) "" <> "tools/list" ->
  get_or (body_method J b) "" <> "tools/call" ->
  handle_mcp_request F J (Some b) now orders
  = (EventStream 200
       (Message "2.0" (body_id J b)
          (ErrorObject (-32601)
             ("Unknown method: " ++ get_or (body_method J b) ""))),
     orders).
Proof.
  intros H1 H2 H3. apply String.eqb_neq in H1, H2, H3.
  unfold handle_mcp_request, method_result. now rewrite H1, H2, H3.
Qed.

Lemma unknown_method_error_object_witness :
  handle_mcp_request decimal_ops nat
    (Some (Body (Some "resources/list") None (Some 7))) "t" []
  = (EventStream 200
       (Message "2.0" (Some 7)
          (ErrorObject (-32601) "Unknown method: resources/list")),
     []).
Proof.
  apply (unknown_method_error_object decimal_ops nat
           (Body (Some "resources/list") None (Some 7)) "t" []);
    discriminate.
Defined.

(** ** The empty name *)

(** C10: the empty medicine name, which is also what [handle_tool_call]
    passes when the argument [medicine_name] is missing, resolves to the
    first catalogue entry, Lisinopril, in [check_availability] and in
    [place_order], since the empty key is contained in every string; and
    [search_medicines] on the empty query, which is what [handle_tool_call]
    passes when [query] is missing, returns the text that lists all ten
    catalogue entries, in catalogue order. *)
Theorem empty_name_resolves_to_first (F : float_ops) :
  let lisinopril :=
    Medicine "Lisinopril" ["5mg"; "10mg"; "20mg"] 1599 "ACE Inhibitor" in
  let all_listed :=
    "Found 10 medicine(s) matching '':" ++ PyStr.nl ++ PyStr.nl
    ++ "1. **Lisinopril** (ACE Inhibitor)" ++ PyStr.nl
    ++ "   Dosages: 5mg, 10mg, 20mg" ++ PyStr.nl
    ++ "   Price: $15.99 per unit" ++ PyStr.nl ++ PyStr.nl
    ++ "2. **Metformin** (Antidiabetic)" ++ PyStr.nl
    ++ "   Dosages: 500mg, 850mg, 1000mg" ++ PyStr.nl
    ++ "   Price: $12.50 per unit" ++ PyStr.nl ++ PyStr.nl
    ++ "3. **Atorvastatin** (Statin)" ++ PyStr.nl
    ++ "   Dosages: 10mg, 20mg, 40mg" ++ PyStr.nl
    ++ "   Price: $18.75 per unit" ++ PyStr.nl ++ PyStr.nl
    ++ "4. **Omeprazole** (PPI)" ++ PyStr.nl
    ++ "   Dosages: 20mg, 40mg" ++ PyStr.nl
    ++ "   Price: $9.99 per unit" ++ PyStr.nl ++ PyStr.nl
    ++ "5. **Amlodipine** (Calcium Channel Blocker)" ++ PyStr.nl
    ++ "   Dosages: 5mg, 10mg" ++ PyStr.nl
    ++ "   Price: $14.25 per unit" ++ PyStr.nl ++ PyStr.nl
    ++ "6. **Ibuprofen** (NSAID)" ++ PyStr.nl
    ++ "   Dosages: 200mg, 400mg, 600mg" ++ PyStr.nl
    ++ "   Price: $8.50 per unit" ++ PyStr.nl ++ PyStr.nl
    ++ "7. **Acetaminophen** (Analgesic)" ++ PyStr.nl
    ++ "   Dosages: 325mg, 500mg, 650mg" ++ PyStr.nl
    ++ "   Price: $7.99 per unit" ++ PyStr.nl ++ PyStr.nl
    ++ "8. **Aspirin** (NSAID/Antiplatelet)" ++ PyStr.nl
    ++ "   Dosages: 81mg, 325mg" ++ PyStr.nl
    ++ "   Price: $6.99 per unit" ++ PyStr.nl ++ PyStr.nl
    ++ "9. **Losartan** (ARB)" ++ PyStr.nl
    ++ "   Dosages: 25mg, 50mg, 100mg" ++ PyStr.nl
    ++ "   Price: $16.50 per unit" ++ PyStr.nl ++ PyStr.nl
    ++ "10. **Gabapentin** (Anticonvulsant)" ++ PyStr.nl
    ++ "   Dosages: 100mg, 300mg, 600mg" ++ PyStr.nl
    ++ "   Price: $22.00 per unit" ++ PyStr.nl ++ PyStr.nl in
  (forall s, PyStr.contains (med_key "") s = true)
  /\ option_map snd (hd_error MEDICINES) = Some lisinopril
  /\ found_med "" = Some lisinopril
  /\ check_availability "" None = ok_result (in_stock_text lisinopril)
  /\ (forall now (orders : ledger F),
        handle_tool_call F "check_availability" no_arguments now orders
        = (Returned (ok_result (in_stock_text lisinopril)), orders))
  /\ (forall d q p now (orders : ledger F),
        place_order F "" d q p now orders
        = place_order F "lisinopril" d q p now orders)
  /\ (forall now (orders : ledger F),
        handle_tool_call F "place_order" no_arguments now orders
        = (Returned (error_result "Order Failed:  not valid for Lisinopril."),
           orders))
  /\ map data (search_results "") = map snd MEDICINES
  /\ (forall now (orders : ledger F),
        handle_tool_call F "search_medicines" no_arguments now orders
        = (Returned (search_medicines ""), orders))
  /\ search_medicines "" = ok_result all_listed
  /\ (forall now (orders : ledger F),
        handle_tool_call F "search_medicines" no_arguments now orders
        = (Returned (ok_result all_listed), orders)).
Proof.
  cbv zeta. repeat split.
  exact contains_empty.
Qed.

(** * Further properties *)

(** ** Searching the catalogue *)

Lemma medicine_eqb_spec (a b : MedicineRecord) :
  medicine_eqb a b = true <-> a = b.
Proof.
  unfold medicine_eqb. destruct a as [n1 d1 p1 c1], b as [n2 d2 p2 c2];
    cbn [name dosages price category].
  rewrite !andb_true_iff, !String.eqb_eq, Z.eqb_eq.
  destruct (list_eq_dec string_dec d1 d2) as [E|E].
  - split; [intros [[[-> _] ->] ->]; now subst | intros [= -> _ -> ->]; auto].
  - split; [intros [[[_ H] _] _]; discriminate | intros [= _ H _ _]; contradiction].
Qed.

Lemma existsb_medicine_eqb (m : MedicineRecord) (l : list MedicineRecord) :
  existsb (medicine_eqb m) l = true <-> In m l.
Proof.
  rewrite existsb_exists. split.
  - intros (x & Hx & E). apply medicine_eqb_spec in E. now subst.
  - intros H. exists m. split; [assumption | now apply medicine_eqb_spec].
Qed.

(** On a catalogue of pairwise distinct records, none of them collected yet,
    the loop appends the matching entries in catalogue order. *)
Lemma search_loop_filter (terms : list string)
    (catalog : list (string * MedicineRecord)) (results : list search_hit) :
  NoDup (map snd catalog) ->
  (forall e, In e catalog -> ~ In (snd e) (map data results)) ->
  search_loop terms catalog results
  = (results ++ map (fun e => make_hit (snd e))
                    (filter (query_matches terms) catalog))%list.
Proof.
  revert results. induction catalog as [|entry rest IH]; intros results Hnd Hnew.
  - cbn. now rewrite app_nil_r.
  - cbn [search_loop filter map] in *. inversion Hnd as [|? ? Hnotin Hnd']; subst.
    fold (query_matches terms entry).
    destruct (query_matches terms entry) eqn:Em.
    + destruct (existsb (medicine_eqb (snd entry)) (map data results)) eqn:Ed.
      * apply existsb_medicine_eqb in Ed. exfalso.
        apply (Hnew entry); [now left | exact Ed].
      * rewrite IH; [cbn [map]; now rewrite <- app_assoc | exact Hnd' |].
        intros e He Hin. rewrite map_app in Hin. cbn [map data make_hit] in Hin.
        apply in_app_or in Hin. destruct Hin as [Hin | [Hin | []]].
        -- apply (Hnew e); [now right | exact Hin].
        -- apply Hnotin. rewrite Hin. now apply in_map.
    + apply IH; [exact Hnd'|]. intros e He. apply Hnew. now right.
Qed.

Lemma catalogue_records_distinct : NoDup (map snd MEDICINES).
Proof.
  cbn. repeat (constructor; [cbn; intuition discriminate|]). constructor.
Qed.

Lemma matched_records_distinct (p : string * MedicineRecord -> bool)
    (catalog : list (string * MedicineRecord)) :
  NoDup (map snd catalog) -> NoDup (map snd (filter p catalog)).
Proof.
  intros Hnd. induction catalog as [|entry rest IH]; cbn [filter map];
    [constructor|].
  cbn [map] in Hnd. apply NoDup_cons_iff in Hnd. destruct Hnd as [Hnew Hrest].
  destruct (p entry); cbn [map]; [|now apply IH].
  apply NoDup_cons; [|now apply IH].
  contradict Hnew. apply in_map_iff in Hnew. destruct Hnew as (e & He & Hin).
  apply filter_In in Hin. rewrite <- He. apply in_map. tauto.
Qed.

Lemma search_medicines_text (query : string) :
  search_medicines query = search_text query (search_results query).
Proof.
  unfold search_medicines, search_text. now destruct (search_results query).
Qed.

Lemma search_results_filter (query : string) :
  search_results query
  = map (fun e => make_hit (snd e))
        (filter (query_matches (search_terms (PyStr.lower query))) MEDICINES).
Proof.
  unfold search_results.
  rewrite search_loop_filter; [reflexivity | exact catalogue_records_distinct |].
  intros e _ [].
Qed.

(** X1: for every query, [search_medicines] returns the text that lists
    the catalogue entries matched by some search term, in catalogue order
    and each once (matched entries have pairwise distinct records); with no
    matched entry it returns the "No medicines found" text. *)
Theorem search_results_in_catalogue_order (query : string) :
  search_medicines query
  = search_text query
      (map (fun e => make_hit (snd e))
           (filter (query_matches (search_terms (PyStr.lower query))) MEDICINES))
  /\ NoDup (map snd
               (filter (query_matches (search_terms (PyStr.lower query)))
                       MEDICINES)).
Proof.
  split.
  - now rewrite search_medicines_text, search_results_filter.
  - apply matched_records_distinct, catalogue_records_distinct.
Qed.

Lemma term_matches_spec (term : string) (entry : string * MedicineRecord) :
  term_matches term entry = true
  <-> PyStr.substring_of term (fst entry)
      \/ PyStr.substring_of term (PyStr.lower (category (snd entry)))
      \/ PyStr.substring_of term (PyStr.lower (name (snd entry))).
Proof.
  unfold term_matches. rewrite !orb_true_iff, !contains_spec. tauto.
Qed.

Lemma search_terms_spec (query_lower term : string) :
  In term (search_terms query_lower)
  <-> term = query_lower
      \/ exists alias categories,
           In (alias, categories) category_aliases
           /\ PyStr.substring_of alias query_lower
           /\ In term categories.
Proof.
  unfold search_terms. cbn [In]. rewrite in_flat_map. split.
  - intros [H | ([alias cats] & Hin & Hterm)]; [now left|].
    right. exists alias, cats. cbn [fst snd] in Hterm.
    destruct (PyStr.contains alias query_lower) eqn:E; [|contradiction].
    apply contains_spec in E. auto.
  - intros [H | (alias & cats & Hin & Hsub & Hterm)]; [now left|].
    right. exists (alias, cats). split; [assumption|]. cbn [fst snd].
    apply contains_spec in Hsub. now rewrite Hsub.
Qed.

(** The records collected by the search loop. *)
Lemma search_results_member (query : string) (med : MedicineRecord) :
  In med (map data (search_results query))
  <-> exists key term,
        In (key, med) MEDICINES
        /\ (term = PyStr.lower query
            \/ exists alias categories,
                 In (alias, categories) category_aliases
                 /\ PyStr.substring_of alias (PyStr.lower query)
                 /\ In term categories)
        /\ (PyStr.substring_of term key
            \/ PyStr.substring_of term (PyStr.lower (category med))
            \/ PyStr.substring_of term (PyStr.lower (name med))).
Proof.
  unfold search_results.
  rewrite search_loop_filter;
    [| exact catalogue_records_distinct | intros e _ []].
  cbn [app]. rewrite map_map. cbn [data make_hit]. rewrite in_map_iff. split.
  - intros ([key m] & <- & Hf). apply filter_In in Hf. destruct Hf as [Hin Hq].
    unfold query_matches in Hq. apply existsb_exists in Hq.
    destruct Hq as (term & Hterm & Hm).
    exists key, term. split; [exact Hin|]. split.
    + now apply search_terms_spec.
    + now apply (term_matches_spec term (key, m)).
  - intros (key & term & Hin & Hterm & Hm).
    exists (key, med). split; [reflexivity|]. apply filter_In. split; [exact Hin|].
    unfold query_matches. apply existsb_exists. exists term. split.
    + now apply search_terms_spec.
    + now apply (term_matches_spec term (key, med)).
Qed.

(** X2: [search_medicines] returns the text of a list of results whose
    records are exactly those of the catalogue entries whose key,
    lower-cased category or lower-cased name contains a search term; the
    search terms are the lower-cased query together with the categories of
    every alias that the lower-cased query contains. *)
Theorem search_medicines_lists_iff (query : string) :
  exists results,
    search_medicines query = search_text query results
    /\ forall med,
         In med (map data results)
         <-> exists key term,
               In (key, med) MEDICINES
               /\ (term = PyStr.lower query
                   \/ exists alias categories,
                        In (alias, categories) category_aliases
                        /\ PyStr.substring_of alias (PyStr.lower query)
                        /\ In term categories)
               /\ (PyStr.substring_of term key
                   \/ PyStr.substring_of term (PyStr.lower (category med))
                   \/ PyStr.substring_of term (PyStr.lower (name med))).
Proof.
  exists (search_results query). split.
  - apply search_medicines_text.
  - intros med. apply search_results_member.
Qed.

(** ** Spelling of names *)

Lemma lower_char_idempotent (c : ascii) :
  PyStr.lower_char (PyStr.lower_char c) = PyStr.lower_char c.
Proof. destruct c as [[] [] [] [] [] [] [] []]; reflexivity. Qed.

Lemma lower_char_space (c : ascii) :
  Ascii.eqb (PyStr.lower_char c) " " = Ascii.eqb c " ".
Proof. destruct c as [[] [] [] [] [] [] [] []]; reflexivity. Qed.

Lemma lower_idempotent (s : string) :
  PyStr.lower (PyStr.lower s) = PyStr.lower s.
Proof.
  induction s as [|c t IH]; cbn [PyStr.lower]; [reflexivity|].
  now rewrite lower_char_idempotent, IH.
Qed.

Lemma remove_spaces_lower (s : string) :
  PyStr.remove_spaces (PyStr.lower s) = PyStr.lower (PyStr.remove_spaces s).
Proof.
  induction s as [|c t IH]; cbn [PyStr.lower PyStr.remove_spaces]; [reflexivity|].
  rewrite lower_char_space.
  destruct (Ascii.eqb c " "); cbn [PyStr.lower]; now rewrite IH.
Qed.

Lemma remove_spaces_idempotent (s : string) :
  PyStr.remove_spaces (PyStr.remove_spaces s) = PyStr.remove_spaces s.
Proof.
  induction s as [|c t IH]; cbn [PyStr.remove_spaces]; [reflexivity|].
  destruct (Ascii.eqb c " ") eqn:E; [exact IH|].
  cbn [PyStr.remove_spaces]. now rewrite E, IH.
Qed.

Lemma med_key_idempotent (n : string) : med_key (med_key n) = med_key n.
Proof.
  unfold med_key.
  rewrite (remove_spaces_lower n).
  now rewrite lower_idempotent, remove_spaces_lower, remove_spaces_idempotent.
Qed.

(** X3: name resolution and the catalogue search do not depend on the case
    of their input, and name resolution does not depend on its space
    characters either: the lower-cased name, the name without spaces and the
    normalised key all resolve as the name itself does. *)
Theorem resolution_ignores_case_and_spaces (s : string) :
  found_med (PyStr.lower s) = found_med s
  /\ found_med (PyStr.remove_spaces s) = found_med s
  /\ found_med (med_key s) = found_med s
  /\ search_results (PyStr.lower s) = search_results s.
Proof.
  unfold found_med, search_results. repeat split.
  - unfold med_key. now rewrite lower_idempotent.
  - unfold med_key. now rewrite <- remove_spaces_lower, remove_spaces_idempotent.
  - now rewrite med_key_idempotent.
  - now rewrite lower_idempotent.
Qed.

(** X4: every catalogue entry is found under its own name: an input whose
    normalised form is the entry's key resolves to that entry's record (no
    earlier key contains a later one), and so do the key itself and the
    display name. *)
Theorem catalogue_names_resolve (key : string) (med : MedicineRecord) :
  In (key, med) MEDICINES ->
  (forall n, med_key n = key -> found_med n = Some med)
  /\ found_med key = Some med
  /\ found_med (name med) = Some med.
Proof.
  intros Hin.
  assert (H : forall n, med_key n = key -> found_med n = Some med).
  { intros n Hn. unfold found_med. rewrite Hn. clear Hn.
    cbn in Hin.
    repeat (destruct Hin as [Hin | Hin];
            [injection Hin as <- <-; reflexivity|]).
    contradiction. }
  split; [exact H|]. split; apply H.
  - cbn in Hin.
    repeat (destruct Hin as [Hin | Hin];
            [injection Hin as <- <-; reflexivity|]).
    contradiction.
  - pose proof catalogue_keys_normalised as Hk.
    rewrite Forall_forall in Hk. exact (Hk _ Hin).
Qed.

Lemma catalogue_names_resolve_witness :
  found_med " Ome Prazole" = Some (Medicine "Omeprazole" ["20mg"; "40mg"] 999 "PPI").
Proof.
  apply (proj1 (catalogue_names_resolve "omeprazole"
                  (Medicine "Omeprazole" ["20mg"; "40mg"] 999 "PPI")
                  ltac:(cbn; tauto))).
  reflexivity.
Defined.

(** ** Placing orders *)

Section OrderFacts.
Context (F : float_ops).

Lemma too_large_false (q : Z) :
  int_too_large_for_float q = false <-> (Z.abs q < 2 ^ 1024 - 2 ^ 970)%Z.
Proof. unfold int_too_large_for_float. apply Z.leb_gt. Qed.

Lemma too_large_true (q : Z) :
  int_too_large_for_float q = true <-> (2 ^ 1024 - 2 ^ 970 <= Z.abs q)%Z.
Proof. unfold int_too_large_for_float. apply Z.leb_le. Qed.

Lemma place_order_success (n d : string) (q : Z) (p now : string)
    (orders : ledger F) (med : MedicineRecord) :
  found_med n = Some med -> In d (dosages med) ->
  int_too_large_for_float q = false ->
  let o := Order F ("ORD-" ++ PyStr.of_nat (List.length orders + 1001))
                 (name med) d q p (price med) (price_times F (price med) q)
                 "PENDING_PHYSICIAN_APPROVAL" now in
  place_order F n d q p now orders
  = (Returned (ok_result (order_placed_text F o)), (orders ++ [o])%list).
Proof.
  intros Hf Hd Hq. apply mem_spec in Hd.
  unfold place_order, Handler.bind, Handler.get, Handler.put, Handler.ret, times.
  now rewrite Hf, Hd, Hq.
Qed.

End OrderFacts.

(** X5: every catalogue medicine can be ordered, under any spelling of its
    name that normalises to its key, in each of its listed dosages and for
    any quantity a double can hold, zero and negative quantities included:
    the call appends one order that holds the record's name and price, the
    dosage, quantity, patient, clock reading and floating-point total given,
    the status PENDING_PHYSICIAN_APPROVAL and the next id, and reports it. *)
Theorem catalogue_medicine_orderable (F : float_ops) (key : string)
    (med : MedicineRecord) (n d : string) (q : Z) (p now : string)
    (orders : ledger F) :
  In (key, med) MEDICINES -> med_key n = key -> In d (dosages med) ->
  (Z.abs q < 2 ^ 1024 - 2 ^ 970)%Z ->
  place_order F n d q p now orders
  = (Returned
       (ok_result
          (order_placed_text F
             (Order F ("ORD-" ++ PyStr.of_nat (List.length orders + 1001))
                    (name med) d q p (price med) (price_times F (price med) q)
                    "PENDING_PHYSICIAN_APPROVAL" now))),
     (orders ++ [Order F ("ORD-" ++ PyStr.of_nat (List.length orders + 1001))
                       (name med) d q p (price med)
                       (price_times F (price med) q)
                       "PENDING_PHYSICIAN_APPROVAL" now])%list).
Proof.
  intros Hin Hn Hd Hq.
  assert (Hf : found_med n = Some med).
  { unfold found_med. rewrite Hn. clear Hn. cbn in Hin.
    repeat (destruct Hin as [Hin | Hin];
            [injection Hin as <- <-; reflexivity|]).
    contradiction. }
  apply (place_order_success F n d q p now orders med Hf Hd).
  now apply too_large_false.
Qed.

Lemma catalogue_medicine_orderable_witness :
  place_order decimal_ops "Los Artan" "50mg" (-3) "P9" "t" []
  = (Returned
       (ok_result
          (order_placed_text decimal_ops
             (Order decimal_ops ("ORD-" ++ PyStr.of_nat (List.length (@nil (order decimal_ops)) + 1001))
                    "Losartan" "50mg" (-3) "P9" 1650 (price_times decimal_ops 1650 (-3))
                    "PENDING_PHYSICIAN_APPROVAL" "t"))),
     ([] ++ [Order decimal_ops ("ORD-" ++ PyStr.of_nat (List.length (@nil (order decimal_ops)) + 1001))
                   "Losartan" "50mg" (-3) "P9" 1650
                   (price_times decimal_ops 1650 (-3))
                   "PENDING_PHYSICIAN_APPROVAL" "t"])%list).
Proof.
  apply (catalogue_medicine_orderable decimal_ops "losartan"
           (Medicine "Losartan" ["25mg"; "50mg"; "100mg"] 1650 "ARB")
           "Los Artan" "50mg" (-3)%Z "P9" "t" []).
  - cbn; tauto.
  - reflexivity.
  - cbn; tauto.
  - reflexivity.
Defined.

(** X6: [place_order] succeeds exactly when the name resolves, the dosage is
    one of the resolved record's, and the magnitude of the quantity is below
    2^1024 - 2^970; the sign of the quantity plays no part. *)
Theorem place_order_succeeds_iff (F : float_ops) (n d : string) (q : Z)
    (p now : string) (orders : ledger F) :
  succeeded (fst (place_order F n d q p now orders)) = true
  <-> exists med, found_med n = Some med /\ In d (dosages med)
                  /\ (Z.abs q < 2 ^ 1024 - 2 ^ 970)%Z.
Proof.
  destruct (place_order_cases F n d q p now orders)
    as [(r & -> & Hr & Hwhy) | [(-> & Hq & med & Hf & Hd) | (med & o & Hf & Hd & Hq & -> & _)]];
    cbn [fst succeeded].
  - rewrite Hr. split; [discriminate|].
    intros (med & Hf & Hd & _). apply mem_spec in Hd.
    destruct Hwhy as [Hn | (med' & Hf' & Hd')]; congruence.
  - split; [discriminate|].
    intros (med' & _ & _ & Hlt). apply too_large_true in Hq. lia.
  - split; [intros _ | reflexivity].
    exists med. split; [assumption|]. split; [now apply mem_spec|].
    now apply too_large_false.
Qed.

(** X7: within the schema types (every argument absent or of the type its
    input schema declares, which is what [arguments] holds) a tool call
    raises, and then [OverflowError], exactly when the tool is
    [place_order], the name resolves, the dosage is listed, and the
    magnitude of the quantity is at least 2^1024 - 2^970, beyond what
    converts to a double.  The ledger is then left as it was.  Values of
    other types are outside this statement. *)
Theorem tool_call_raises_iff (F : float_ops) (tool : string) (args : arguments)
    (now : string) (orders : ledger F) :
  fst (handle_tool_call F tool args now orders) = Raised OverflowError
  <-> tool = "place_order"
      /\ (exists med, found_med (get_or (arg_medicine_name args) "") = Some med
                      /\ In (get_or (arg_dosage args) "") (dosages med))
      /\ (2 ^ 1024 - 2 ^ 970 <= Z.abs (get_or (arg_quantity args) 30))%Z
      /\ snd (handle_tool_call F tool args now orders) = orders.
Proof.
  unfold handle_tool_call.
  destruct (String.eqb tool "search_medicines") eqn:E1;
    [apply String.eqb_eq in E1; subst; split; [discriminate | intros [H _]; discriminate]|].
  destruct (String.eqb tool "check_availability") eqn:E2;
    [apply String.eqb_eq in E2; subst; split; [discriminate | intros [H _]; discriminate]|].
  destruct (String.eqb tool "place_order") eqn:E3.
  - apply String.eqb_eq in E3. subst tool.
    destruct (place_order_cases F (get_or (arg_medicine_name args) "")
                (get_or (arg_dosage args) "") (get_or (arg_quantity args) 30%Z)
                (get_or (arg_patient_id args) "UNKNOWN") now orders)
      as [(r & -> & Hr & Hwhy) | [(-> & Hq & med & Hf & Hd) | (med & o & Hf & Hd & Hq & -> & _)]];
      cbn [fst snd].
    + split; [discriminate|].
      intros (_ & (med & Hf & Hd) & _). apply mem_spec in Hd.
      destruct Hwhy as [Hn | (med' & Hf' & Hd')]; congruence.
    + split; [intros _ | reflexivity].
      split; [reflexivity|]. split; [exists med; split; [assumption | now apply mem_spec]|].
      split; [now apply too_large_true | reflexivity].
    + split; [discriminate|].
      intros (_ & _ & Hge & _). apply too_large_false in Hq. lia.
  - apply String.eqb_neq in E3.
    split; [|intros [H _]; contradiction].
    destruct (String.eqb tool "check_drug_interactions"); [discriminate|].
    destruct (String.eqb tool "get_order_status"); discriminate.
Qed.

(** ** The ledger over a session *)

Lemma first_match_In (mk : string) (catalog : list (string * MedicineRecord))
    (med : MedicineRecord) :
  first_match mk catalog = Some med -> exists key, In (key, med) catalog.
Proof.
  induction catalog as [|[key m] rest IH]; cbn [first_match]; [discriminate|].
  destruct (key_matches mk (key, m)).
  - intros [= <-]. exists key. now left.
  - intros H. destruct (IH H) as [key' Hin]. exists key'. now right.
Qed.

Section SessionFacts.
Context (F : float_ops).

(** What a tool call does to the ledger, with the appended order spelled
    out. *)
Lemma step_ledger (c : tool_call) (orders : ledger F) :
  snd (step F c orders) = orders
  \/ exists med n d q p,
       found_med n = Some med /\ In d (dosages med)
       /\ int_too_large_for_float q = false
       /\ snd (step F c orders)
          = (orders ++ [Order F ("ORD-" ++ PyStr.of_nat (List.length orders + 1001))
                              (name med) d q p (price med)
                              (price_times F (price med) q)
                              "PENDING_PHYSICIAN_APPROVAL" (call_now c)])%list.
Proof.
  destruct c as [tool args now]. unfold step, handle_tool_call.
  cbn [call_tool call_arguments call_now].
  destruct (String.eqb tool "search_medicines"); [now left|].
  destruct (String.eqb tool "check_availability"); [now left|].
  destruct (String.eqb tool "place_order").
  - destruct (place_order_cases F (get_or (arg_medicine_name args) "")
                (get_or (arg_dosage args) "") (get_or (arg_quantity args) 30%Z)
                (get_or (arg_patient_id args) "UNKNOWN") now orders)
      as [(r & -> & _) | [(-> & _) | (med & o & Hf & Hd & Hq & _)]];
      [now left | now left |].
    right. apply mem_spec in Hd.
    exists med, (get_or (arg_medicine_name args) ""), (get_or (arg_dosage args) ""),
      (get_or (arg_quantity args) 30%Z), (get_or (arg_patient_id args) "UNKNOWN").
    repeat split; try assumption.
    now rewrite (place_order_success F _ _ _ _ now orders med Hf Hd Hq).
  - destruct (String.eqb tool "check_drug_interactions"); [now left|].
    destruct (String.eqb tool "get_order_status"); now left.
Qed.

Lemma run_snoc_call (calls : list tool_call) (c : tool_call) (orders : ledger F) :
  run F (calls ++ [c]) orders = snd (step F c (run F calls orders)).
Proof. unfold run. now rewrite fold_left_app. Qed.

End SessionFacts.

(** X8: in the ledger of any session started empty, every order holds the
    name, one of the listed dosages and the price of one catalogue record,
    the product of that price and its quantity, a quantity a double can
    hold, and the status PENDING_PHYSICIAN_APPROVAL: the dosage is validated
    at creation and no call changes an order afterwards. *)
Theorem ledger_orders_from_catalogue (F : float_ops) (calls : list tool_call) :
  Forall (order_from_catalogue F) (run F calls []).
Proof.
  induction calls as [|c calls IH] using rev_ind; [constructor|].
  rewrite run_snoc_call.
  destruct (step_ledger F c (run F calls []))
    as [-> | (med & n & d & q & p & Hf & Hd & Hq & ->)]; [exact IH|].
  apply Forall_app. split; [exact IH|]. constructor; [|constructor].
  destruct (first_match_In _ _ _ Hf) as [key Hin].
  exists key, med. cbn. repeat split; try assumption.
  now apply too_large_false.
Qed.

(** X9: the ledger is append-only: whatever calls are made, from whatever
    ledger, the earlier orders stay, unchanged and in place, at the front of
    the ledger. *)
Theorem ledger_append_only (F : float_ops) (calls : list tool_call)
    (orders : ledger F) :
  exists later, run F calls orders = (orders ++ later)%list.
Proof.
  induction calls as [|c calls IH] using rev_ind.
  - exists []. cbn. now rewrite app_nil_r.
  - destruct IH as [later IH]. rewrite run_snoc_call, IH.
    destruct (step_ledger F c (orders ++ later)%list)
      as [-> | (med & n & d & q & p & _ & _ & _ & ->)].
    + now exists later.
    + eexists. now rewrite <- app_assoc.
Qed.

(** X10: after any session started on the empty ledger, with N successful
    [place_order] calls, [get_order_status] returns a result without error
    flag exactly for the ids ORD-1001, ..., ORD-(1000+N), and the error
    result for every other string. *)
Theorem status_known_iff_issued (F : float_ops) (calls : list tool_call)
    (oid : string) :
  flagged (fst (get_order_status F oid (run F calls []))) = false
  <-> exists k, 1 <= k <= placed_count F calls []
                /\ oid = "ORD-" ++ PyStr.of_nat (1000 + k).
Proof.
  destruct (run_invariant F calls [] eq_refl) as (Hlen & Hseq & _).
  cbn [List.length Nat.add] in Hlen. unfold ids_sequential in Hseq.
  rewrite Hlen in Hseq.
  assert (Hin : In oid (map (order_id F) (run F calls []))
                <-> exists k, 1 <= k <= placed_count F calls []
                              /\ oid = "ORD-" ++ PyStr.of_nat (1000 + k)).
  { rewrite Hseq, in_map_iff. unfold nth_order_id. split.
    - intros (k & <- & Hk). apply in_seq in Hk. exists k. split; [lia | reflexivity].
    - intros (k & Hk & ->). exists k. split; [reflexivity | apply in_seq; lia]. }
  rewrite <- Hin.
  unfold get_order_status, Handler.bind, Handler.get, Handler.ret. cbn [fst flagged].
  pose proof (scan_orders_flag F (run F calls []) oid) as Hflag.
  destruct (isError (scan_orders F (run F calls []) oid)).
  - split; [discriminate|]. intros H. exfalso. now apply (proj1 Hflag).
  - split; [intros _ | reflexivity].
    destruct (in_dec string_dec oid (map (order_id F) (run F calls [])))
      as [H | H]; [exact H|].
    apply (proj2 Hflag) in H. discriminate.
Qed.

(** ** Advertised and dispatched tools *)

Lemma search_medicines_unflagged (query : string) :
  isError (search_medicines query) = false.
Proof. unfold search_medicines. now destruct (search_results query). Qed.

Lemma check_availability_unflagged (n : string) (d : option string) :
  isError (check_availability n d) = false.
Proof.
  unfold check_availability.
  destruct (found_med n) as [med|]; [|reflexivity].
  destruct d as [d|]; [|reflexivity].
  now destruct (negb (String.eqb d "") && negb (PyStr.mem d (dosages med))).
Qed.

Lemma check_drug_interactions_unflagged (medicines : list string) :
  isError (check_drug_interactions medicines) = false.
Proof. unfold check_drug_interactions. now destruct (found_interactions medicines). Qed.

Lemma scan_orders_not_unknown_tool (F : float_ops) (orders : ledger F)
    (oid tool : string) :
  scan_orders F orders oid <> error_result ("Unknown tool: " ++ tool).
Proof.
  induction orders as [|o rest IH]; cbn [scan_orders].
  - cbn. discriminate.
  - destruct (String.eqb (order_id F o) oid); [discriminate | exact IH].
Qed.

Lemma place_order_not_unknown_tool (F : float_ops) (n d : string) (q : Z)
    (p now : string) (orders : ledger F) (tool : string) :
  fst (place_order F n d q p now orders)
  <> Returned (error_result ("Unknown tool: " ++ tool)).
Proof.
  unfold place_order.
  destruct (found_med n) as [med|]; [|cbn; discriminate].
  destruct (PyStr.mem d (dosages med)); cbn [negb]; [|cbn; discriminate].
  unfold Handler.bind, Handler.get, Handler.put, Handler.ret, times.
  destruct (int_too_large_for_float q); cbn [fst]; discriminate.
Qed.

Lemma returned_pair_inj {S A : Type} (a b : A) (s s' : S) :
  (Returned a, s) = (Returned b, s') -> a = b.
Proof. intros H. now inversion H. Qed.

(** X11: the tools that [tools/list] advertises are the tools that
    [tools/call] dispatches: a call gets the error-flagged "Unknown tool"
    result, with the ledger untouched, exactly when its tool name is not the
    name of a descriptor in [TOOLS]. *)
Theorem unknown_tool_iff_not_advertised (F : float_ops) (tool : string)
    (args : arguments) (now : string) (orders : ledger F) :
  handle_tool_call F tool args now orders
  = (Returned (error_result ("Unknown tool: " ++ tool)), orders)
  <-> ~ In tool (map tool_name TOOLS).
Proof.
  cbn [map TOOLS tool_name In]. unfold handle_tool_call. split.
  - intros H Hin.
    destruct Hin as [<- | [<- | [<- | [<- | [<- | []]]]]];
      cbn [String.eqb Ascii.eqb Bool.eqb] in H; unfold Handler.ret in H.
    + apply returned_pair_inj, (f_equal isError) in H.
      rewrite search_medicines_unflagged in H. discriminate.
    + apply returned_pair_inj, (f_equal isError) in H.
      rewrite check_availability_unflagged in H. discriminate.
    + apply (f_equal fst) in H. cbn [fst] in H.
      now apply place_order_not_unknown_tool in H.
    + apply returned_pair_inj, (f_equal isError) in H.
      rewrite check_drug_interactions_unflagged in H. discriminate.
    + unfold get_order_status, Handler.bind, Handler.get, Handler.ret in H.
      apply returned_pair_inj in H. now apply scan_orders_not_unknown_tool in H.
  - intros Hnot.
    repeat match goal with
           | |- context [String.eqb tool ?n] =>
               let E := fresh "E" in
               destruct (String.eqb tool n) eqn:E;
               [apply String.eqb_eq in E; exfalso; apply Hnot; rewrite E; tauto|]
           end.
    reflexivity.
Qed.

(** ** Requests *)

(** X12: a request whose parsed body is an object with fields of the
    expected types (a string [method], an object [params] with a string
    [name] and schema-typed [arguments], any of them possibly missing, which
    is what [body] holds) is answered, whatever its method, with status 200
    by one message with [jsonrpc] 2.0 and the id of the request (null when
    the request has none), provided it is not a [tools/call] of
    [place_order] with a quantity of magnitude 2^1024 - 2^970 or more.
    Bodies of other shapes are outside this statement. *)
Theorem request_answered_with_its_id (F : float_ops) (J : Type) (b : body J)
    (now : string) (orders : ledger F) :
  get_or (body_method J b) "" <> "tools/call"
  \/ get_or (param_name (get_or (body_params J b) (Params None None))) ""
     <> "place_order"
  \/ (Z.abs (get_or (arg_quantity
                       (get_or (param_arguments
                                  (get_or (body_params J b) (Params None None)))
                               no_arguments))
                    30) < 2 ^ 1024 - 2 ^ 970)%Z ->
  exists res orders',
    handle_mcp_request F J (Some b) now orders
    = (EventStream 200 (Message "2.0" (body_id J b) res), orders').
Proof.
  intros Hsafe.
  pose proof (handle_mcp_request_cases F J b now orders) as H.
  destruct (handle_mcp_request F J (Some b) now orders) as [resp orders'].
  cbn [fst] in H. destruct resp as [|st [v i res]|e].
  - contradiction.
  - cbn [jsonrpc id] in H. destruct H as (-> & -> & ->). now exists res, orders'.
  - destruct H as (Hm & Ht & Hq). apply too_large_true in Hq.
    destruct Hsafe as [Hs | [Hs | Hs]]; [contradiction | contradiction | lia].
Qed.

Lemma request_answered_with_its_id_witness :
  exists res orders',
    handle_mcp_request decimal_ops nat
      (Some (Body (Some "tools/call")
                  (Some (Params (Some "place_order")
                                (Some (Arguments_ None (Some "aspirin") (Some "81mg")
                                                  (Some 0%Z) None None None))))
                  None))
      "t" []
    = (EventStream 200 (Message "2.0" None res), orders').
Proof.
  apply (request_answered_with_its_id decimal_ops nat
           (Body (Some "tools/call")
                 (Some (Params (Some "place_order")
                               (Some (Arguments_ None (Some "aspirin") (Some "81mg")
                                                 (Some 0%Z) None None None))))
                 None) "t" []).
  right. right. reflexivity.
Defined.

(** X13: a request changes the ledger only as a [tools/call] of
    [place_order] does: an unparseable request, [initialize], [tools/list],
    an unknown method and every other tool leave it as it was, and a
    [place_order] request leaves it or appends one order. *)
Theorem request_ledger_effect (F : float_ops) (J : Type)
    (parsed : option (body J)) (now : string) (orders : ledger F) :
  snd (handle_mcp_request F J parsed now orders) = orders
  \/ exists b o,
       parsed = Some b
       /\ get_or (body_method J b) "" = "tools/call"
       /\ get_or (param_name (get_or (body_params J b) (Params None None))) ""
          = "place_order"
       /\ handle_mcp_request F J parsed now orders
          = (EventStream 200
               (Message "2.0" (body_id J b)
                  (CallResult (ok_result (order_placed_text F o)))),
             (orders ++ [o])%list).
Proof.
  destruct parsed as [b|]; [|now left].
  unfold handle_mcp_request, method_result.
  destruct (String.eqb (get_or (body_method J b) "") "initialize"); [now left|].
  destruct (String.eqb (get_or (body_method J b) "") "tools/list"); [now left|].
  destruct (String.eqb (get_or (body_method J b) "") "tools/call") eqn:Em; [|now left].
  apply String.eqb_eq in Em.
  set (ps := get_or (body_params J b) (Params None None)).
  unfold Handler.bind, handle_tool_call.
  destruct (String.eqb (get_or (param_name ps) "") "search_medicines"); [now left|].
  destruct (String.eqb (get_or (param_name ps) "") "check_availability"); [now left|].
  destruct (String.eqb (get_or (param_name ps) "") "place_order") eqn:Et.
  - apply String.eqb_eq in Et.
    match goal with
    | |- context [place_order F ?n ?d ?q ?p now orders] =>
        destruct (place_order_cases F n d q p now orders)
          as [(r & -> & _) | [(-> & _) | (med & o & _ & _ & _ & -> & _)]]
    end; [now left | now left |].
    right. exists b, o. repeat split; assumption.
  - destruct (String.eqb (get_or (param_name ps) "") "check_drug_interactions");
      [now left|].
    destruct (String.eqb (get_or (param_name ps) "") "get_order_status"); now left.
Qed.

(** ** The pairwise scan *)

Lemma either_in_spec (a b : string) :
  either_in a b = true <-> either_contains a b.
Proof.
  unfold either_in, either_contains. now rewrite orb_true_iff, !contains_spec.
Qed.

Lemma rule_applies_sym (r : rule) (a b : string) :
  rule_applies r a b = rule_applies r b a.
Proof.
  unfold rule_applies.
  destruct (either_in (drug1 r) a), (either_in (drug2 r) b),
    (either_in (drug2 r) a), (either_in (drug1 r) b); reflexivity.
Qed.

Lemma match_rule_finding (medicines medicines_lower : list string)
    (med1 med2 : string) (r : rule) :
  map finding (match_rule medicines medicines_lower med1 med2 r)
  = if rule_applies r med1 med2 then [rule_finding r] else [].
Proof.
  unfold match_rule, rule_applies.
  destruct (either_in (drug1 r) med1 && either_in (drug2 r) med2); [reflexivity|].
  now destruct (either_in (drug2 r) med1 && either_in (drug1 r) med2).
Qed.

Lemma map_flat_map {A B C : Type} (f : B -> C) (g : A -> list B) (l : list A) :
  map f (flat_map g l) = flat_map (fun a => map f (g a)) l.
Proof.
  induction l as [|a t IH]; cbn; [reflexivity|]. now rewrite map_app, IH.
Qed.

Lemma flat_map_if_filter {A B : Type} (p : A -> bool) (f : A -> B) (l : list A) :
  flat_map (fun a => if p a then [f a] else []) l = map f (filter p l).
Proof.
  induction l as [|a t IH]; cbn; [reflexivity|].
  destruct (p a); cbn; now rewrite IH.
Qed.

(** The findings of one pair: the rules that apply, in table order. *)
Lemma pair_findings (medicines medicines_lower : list string) (med1 med2 : string) :
  map finding (flat_map (match_rule medicines medicines_lower med1 med2) interactions)
  = map rule_finding (filter (fun r => rule_applies r med1 med2) interactions).
Proof.
  rewrite map_flat_map, <- flat_map_if_filter.
  apply flat_map_ext. intros r. apply match_rule_finding.
Qed.

(** The findings depend on the normalised names only. *)
Lemma scan_pairs_findings (m1 l1 m2 l2 rest : list string) :
  map finding (scan_pairs m1 l1 rest) = map finding (scan_pairs m2 l2 rest).
Proof.
  induction rest as [|med1 later IH]; cbn [scan_pairs]; [reflexivity|].
  rewrite !map_app, IH. f_equal.
  rewrite !map_flat_map. apply flat_map_ext. intros med2.
  now rewrite !pair_findings.
Qed.

Lemma map_insert_by {A B : Type} (f : A -> B) (key : A -> nat) (key' : B -> nat)
    (x : A) (l : list A) :
  (forall a, key a = key' (f a)) ->
  map f (insert_by key x l) = insert_by key' (f x) (map f l).
Proof.
  intros Hk. induction l as [|y t IH]; cbn [insert_by map]; [reflexivity|].
  rewrite <- !Hk. destruct (key x <=? key y)%nat; cbn [map]; now rewrite ?IH.
Qed.

Lemma map_sort_by {A B : Type} (f : A -> B) (key : A -> nat) (key' : B -> nat)
    (l : list A) :
  (forall a, key a = key' (f a)) ->
  map f (sort_by key l) = sort_by key' (map f l).
Proof.
  intros Hk. induction l as [|x t IH]; cbn [sort_by map]; [reflexivity|].
  now rewrite (map_insert_by f key key' _ _ Hk), IH.
Qed.

Lemma sorted_findings (medicines : list string) :
  map finding (sorted_interactions medicines)
  = sort_by (fun f => severity_order (fst f))
            (map finding (found_interactions medicines)).
Proof. unfold sorted_interactions. now apply map_sort_by. Qed.

(** X14: the interaction check of two names is symmetric: for any two
    inputs, the severities and descriptions reported, and their order, are
    the same whichever name comes first; only the displayed pair differs. *)
Theorem interaction_pair_symmetric (a b : string) :
  map finding (found_interactions [a; b]) = map finding (found_interactions [b; a])
  /\ map finding (sorted_interactions [a; b])
     = map finding (sorted_interactions [b; a]).
Proof.
  assert (E : map finding (found_interactions [a; b])
              = map finding (found_interactions [b; a])).
  { unfold found_interactions. cbn [map scan_pairs flat_map].
    rewrite !app_nil_r, !pair_findings.
    f_equal. apply filter_ext. intros r. apply rule_applies_sym. }
  split; [exact E|]. now rewrite !sorted_findings, E.
Qed.

(** X15: the severities and descriptions that the interaction check reports
    depend only on the normalised names: two input lists whose names agree
    up to case and space characters get the same findings in the same
    order. *)
Theorem interactions_ignore_spelling (ms1 ms2 : list string) :
  map med_key ms1 = map med_key ms2 ->
  map finding (sorted_interactions ms1) = map finding (sorted_interactions ms2).
Proof.
  intros H. rewrite !sorted_findings. f_equal.
  unfold found_interactions. rewrite H. apply scan_pairs_findings.
Qed.

Lemma interactions_ignore_spelling_witness :
  map finding (sorted_interactions ["IBUPROFEN"; "Asp irin"])
  = map finding (sorted_interactions ["ibuprofen"; "aspirin"]).
Proof.
  apply (interactions_ignore_spelling ["IBUPROFEN"; "Asp irin"]
                                      ["ibuprofen"; "aspirin"]).
  reflexivity.
Defined.

Lemma scan_pairs_In (medicines medicines_lower rest : list string)
    (x : interaction) :
  In x (scan_pairs medicines medicines_lower rest)
  <-> exists l1 med1 l2 med2 l3 r,
        rest = (l1 ++ med1 :: l2 ++ med2 :: l3)%list
        /\ In r interactions
        /\ In x (match_rule medicines medicines_lower med1 med2 r).
Proof.
  induction rest as [|m later IH]; cbn [scan_pairs].
  - split; [contradiction|].
    intros (l1 & med1 & l2 & med2 & l3 & r & H & _). now destruct l1.
  - rewrite in_app_iff, in_flat_map, IH. split.
    + intros [(med2 & Hin & Hx) | (l1 & med1 & l2 & med2 & l3 & r & -> & Hr & Hx)].
      * apply in_flat_map in Hx. destruct Hx as (r & Hr & Hx).
        apply in_split in Hin. destruct Hin as (l2 & l3 & ->).
        now exists [], m, l2, med2, l3, r.
      * now exists (m :: l1), med1, l2, med2, l3, r.
    + intros ([|m' l1] & med1 & l2 & med2 & l3 & r & H & Hr & Hx);
        cbn [app] in H; injection H as <- ->.
      * left. exists med2. split; [apply in_elt|].
        apply in_flat_map. now exists r.
      * right. now exists l1, med1, l2, med2, l3, r.
Qed.

(** The findings of the pairwise scan. *)
Lemma scan_finding_iff (medicines : list string) (sev desc : string) :
  In (sev, desc) (map finding (found_interactions medicines))
  <-> exists l1 med1 l2 med2 l3 r,
        map med_key medicines = (l1 ++ med1 :: l2 ++ med2 :: l3)%list
        /\ In r interactions
        /\ rule_severity r = sev /\ rule_description r = desc
        /\ (either_contains (drug1 r) med1 /\ either_contains (drug2 r) med2
            \/ either_contains (drug2 r) med1 /\ either_contains (drug1 r) med2).
Proof.
  unfold found_interactions. rewrite in_map_iff. split.
  - intros (x & Hf & Hx). apply scan_pairs_In in Hx.
    destruct Hx as (l1 & med1 & l2 & med2 & l3 & r & Hl & Hr & Hx).
    exists l1, med1, l2, med2, l3, r. split; [exact Hl|]. split; [exact Hr|].
    apply (in_map finding) in Hx. rewrite match_rule_finding, Hf in Hx.
    destruct (rule_applies r med1 med2) eqn:E; [|contradiction].
    destruct Hx as [[= <- <-] | []]. split; [reflexivity|]. split; [reflexivity|].
    unfold rule_applies in E.
    rewrite orb_true_iff, !andb_true_iff, !either_in_spec in E. exact E.
  - intros (l1 & med1 & l2 & med2 & l3 & r & Hl & Hr & <- & <- & Happ).
    assert (E : rule_applies r med1 med2 = true).
    { unfold rule_applies.
      now rewrite orb_true_iff, !andb_true_iff, !either_in_spec. }
    pose proof (match_rule_finding medicines (map med_key medicines) med1 med2 r)
      as Hm.
    rewrite E in Hm.
    destruct (match_rule medicines (map med_key medicines) med1 med2 r)
      as [|x [|? ?]] eqn:Ex; try discriminate.
    cbn [map] in Hm. exists x.
    split; [change (finding x = rule_finding r); congruence|].
    apply scan_pairs_In. exists l1, med1, l2, med2, l3, r.
    split; [exact Hl|]. split; [exact Hr|]. rewrite Ex. now left.
Qed.

(** X16: [check_drug_interactions] returns the text of a list of matches in
    which a severity and description occur exactly when some rule of the
    table carries them and applies to two names of the list, the first
    standing before the second: each drug of the rule contains or is
    contained in one of the two normalised names, in either assignment. *)
Theorem interaction_reported_iff (medicines : list string) :
  exists report,
    check_drug_interactions medicines = report_text medicines report
    /\ forall sev desc,
         In (sev, desc) (map finding report)
         <-> exists l1 med1 l2 med2 l3 r,
               map med_key medicines = (l1 ++ med1 :: l2 ++ med2 :: l3)%list
               /\ In r interactions
               /\ rule_severity r = sev /\ rule_description r = desc
               /\ (either_contains (drug1 r) med1 /\ either_contains (drug2 r) med2
                   \/ either_contains (drug2 r) med1
                      /\ either_contains (drug1 r) med2).
Proof.
  exists (sorted_interactions medicines). split.
  - apply check_drug_interactions_report.
  - intros sev desc. rewrite <- scan_finding_iff.
    assert (P : Permutation (map finding (found_interactions medicines))
                            (map finding (sorted_interactions medicines))).
    { apply Permutation_map. unfold sorted_interactions. apply sort_by_perm. }
    split; intros H.
    + eapply Permutation_in; [apply Permutation_sym, P | exact H].
    + eapply Permutation_in; [exact P | exact H].
Qed.

(** ** What the report displays *)

Lemma index_of_member (x : string) (l : list string) :
  In x l ->
  exists i, index x l = Some i /\ i < List.length l /\ nth i l "" = x.
Proof.
  induction l as [|y t IH]; intros Hin; [contradiction|].
  cbn [index]. destruct (String.eqb y x) eqn:E.
  - apply String.eqb_eq in E. exists 0. cbn. repeat split; [lia | exact E].
  - apply String.eqb_neq in E. destruct Hin as [Hin | Hin]; [contradiction|].
    destruct (IH Hin) as (i & -> & Hlt & Hnth).
    exists (S i). cbn. repeat split; [lia | exact Hnth].
Qed.

(** The displayed string is an input, and one that normalises to the name
    it stands for. *)
Lemma original_is_input (medicines : list string) (med : string) :
  In med (map med_key medicines) ->
  In (original medicines (map med_key medicines) med) medicines
  /\ med_key (original medicines (map med_key medicines) med) = med.
Proof.
  intros Hin. unfold original.
  destruct (index_of_member med _ Hin) as (i & -> & Hlt & Hnth).
  rewrite length_map in Hlt. split; [now apply nth_In|].
  rewrite <- Hnth.
  rewrite (nth_indep (map med_key medicines) "" (med_key ""))
    by now rewrite length_map.
  now rewrite map_nth.
Qed.

Lemma match_rule_In (medicines medicines_lower : list string)
    (med1 med2 : string) (r : rule) (x : interaction) :
  In x (match_rule medicines medicines_lower med1 med2 r) ->
  x = Interaction (original medicines medicines_lower med1 ++ " + "
                   ++ original medicines medicines_lower med2)
                  (rule_severity r) (rule_description r).
Proof.
  unfold match_rule.
  destruct (either_in (drug1 r) med1 && either_in (drug2 r) med2);
    [intros [<- | []]; reflexivity|].
  destruct (either_in (drug2 r) med1 && either_in (drug1 r) med2);
    [intros [<- | []]; reflexivity | contradiction].
Qed.

Lemma rule_severities_ranked :
  Forall (fun r => In (rule_severity r) ["SEVERE"; "MODERATE"; "MINOR"; "SAFE"])
         interactions.
Proof.
  unfold interactions.
  repeat (apply Forall_cons; [cbn [rule_severity In]; auto 6|]).
  apply Forall_nil.
Qed.

(** X17: every reported interaction displays two of the input strings, as
    given, joined by " + ", each one an input that normalises to the name
    that matched, and carries one of the four ranked severities: the rank
    for unknown severities is never used. *)
Theorem reported_interactions_name_inputs (medicines : list string) :
  Forall (fun x =>
            (exists a b, In a medicines /\ In b medicines
                         /\ drugs x = a ++ " + " ++ b)
            /\ In (severity x) ["SEVERE"; "MODERATE"; "MINOR"; "SAFE"]
            /\ severity_order (severity x) <= 3)
         (sorted_interactions medicines).
Proof.
  eapply Permutation_Forall; [apply sort_by_perm|].
  apply Forall_forall. intros x Hx. unfold found_interactions in Hx.
  apply scan_pairs_In in Hx.
  destruct Hx as (l1 & med1 & l2 & med2 & l3 & r & Hl & Hr & Hx).
  apply match_rule_In in Hx. subst x. cbn [drugs severity].
  assert (H1 : In med1 (map med_key medicines)).
  { rewrite Hl. apply in_elt. }
  assert (H2 : In med2 (map med_key medicines)).
  { rewrite Hl. apply in_or_app. right. right. apply in_elt. }
  destruct (original_is_input medicines med1 H1) as [Ha _].
  destruct (original_is_input medicines med2 H2) as [Hb _].
  pose proof rule_severities_ranked as Hs. rewrite Forall_forall in Hs.
  specialize (Hs r Hr). split; [eauto|]. split; [exact Hs|].
  cbn in Hs. destruct Hs as [<- | [<- | [<- | [<- | []]]]]; cbn; lia.
Qed.

(** X18: with fewer than two names there is no pair to test: the check
    reports that no interaction is known, naming the input as given. *)
Theorem no_interaction_below_two_names (medicines : list string) :
  List.length medicines <= 1 ->
  check_drug_interactions medicines
  = ok_result ("No known interactions found between: "
               ++ PyStr.join ", " medicines).
Proof.
  destruct medicines as [|a [|b t]]; cbn [List.length]; intros H;
    [reflexivity | reflexivity | lia].
Qed.

Lemma no_interaction_below_two_names_witness :
  check_drug_interactions ["lisinopril"]
  = ok_result ("No known interactions found between: "
               ++ PyStr.join ", " ["lisinopril"]).
Proof.
  apply (no_interaction_below_two_names ["lisinopril"]). cbn. lia.
Defined.

Lemma either_in_empty (d : string) : either_in d "" = true.
Proof. unfold either_in. now rewrite contains_empty, orb_true_r. Qed.

Lemma blank_name_findings (a b : string) :
  med_key a = "" ->
  map finding (found_interactions [a; b])
  = map rule_finding
        (filter (fun r => either_in (drug1 r) (med_key b)
                          || either_in (drug2 r) (med_key b))
                interactions).
Proof.
  intros Ha. unfold found_interactions. cbn [map scan_pairs flat_map].
  rewrite !app_nil_r, pair_findings, Ha. f_equal.
  apply filter_ext. intros r. unfold rule_applies.
  rewrite !either_in_empty. cbn [andb]. apply orb_comm.
Qed.

(** X19: a name that normalises to the empty string (an empty name, or
    spaces only) is contained in every drug name.  Next to a second name,
    [check_drug_interactions] returns the text of a list whose findings are,
    sorted by rank, those of every rule one of whose drugs contains or is
    contained in the second name; and for two such names it returns the
    report of all the rules of the table, sorted by rank, each displayed
    with the first name on both sides. *)
Theorem blank_name_matches_rules (a b : string) :
  med_key a = "" ->
  (exists report,
      check_drug_interactions [a; b] = report_text [a; b] report
      /\ map finding report
         = sort_by (fun f => severity_order (fst f))
                   (map rule_finding
                        (filter (fun r => either_in (drug1 r) (med_key b)
                                          || either_in (drug2 r) (med_key b))
                                interactions)))
  /\ (med_key b = "" ->
      check_drug_interactions [a; b]
      = report_text [a; b]
          (sort_by (fun x => severity_order (severity x))
                   (map (fun r => Interaction (a ++ " + " ++ a)
                                              (rule_severity r) (rule_description r))
                        interactions))).
Proof.
  intros Ha. split.
  - exists (sorted_interactions [a; b]). split.
    + apply check_drug_interactions_report.
    + now rewrite sorted_findings, blank_name_findings.
  - intros Hb. rewrite check_drug_interactions_report. f_equal.
    unfold sorted_interactions, found_interactions. cbn [map].
    rewrite Ha, Hb. reflexivity.
Qed.

Lemma blank_name_matches_rules_witness :
  check_drug_interactions ["  "; ""]
  = report_text ["  "; ""]
      (sort_by (fun x => severity_order (severity x))
               (map (fun r => Interaction ("  " ++ " + " ++ "  ")
                                          (rule_severity r) (rule_description r))
                    interactions)).
Proof.
  apply (proj2 (blank_name_matches_rules "  " "" eq_refl)). reflexivity.
Defined.

(** ** Availability and ordering *)

Lemma str_append_assoc (a b c : string) : (a ++ b) ++ c = a ++ b ++ c.
Proof. induction a as [|x a IH]; cbn; [reflexivity | now rewrite IH]. Qed.

Lemma str_append_nil (a : string) : a ++ "" = a.
Proof. induction a as [|x a IH]; cbn; [reflexivity | now rewrite IH]. Qed.

Lemma not_in_dosage_text_differs (med : MedicineRecord) (d tail : string) :
  "**" ++ name med ++ "** is available but NOT in " ++ d ++ " dosage." ++ PyStr.nl
  ++ "Available dosages: " ++ PyStr.join ", " (dosages med) ++ PyStr.nl
  ++ "Price: $" ++ price_2f (price med) ++ " per unit"
  <> in_stock_text med ++ tail.
Proof.
  unfold in_stock_text. intros H.
  rewrite !str_append_assoc in H.
  apply (append_cancel_l "**"), append_cancel_l in H.
  cbn in H. discriminate.
Qed.

(** X20: the availability check and the order agree: for a non-empty dosage
    and a quantity a double can hold, [place_order] succeeds exactly when
    [check_availability] resolves the name to a record and reports, for that
    record, that the dosage is available for immediate order. *)
Theorem availability_agrees_with_ordering (F : float_ops) (n d : string) (q : Z)
    (p now : string) (orders : ledger F) :
  d <> "" -> (Z.abs q < 2 ^ 1024 - 2 ^ 970)%Z ->
  (succeeded (fst (place_order F n d q p now orders)) = true
   <-> exists med,
         found_med n = Some med
         /\ check_availability n (Some d)
            = ok_result (in_stock_text med ++ PyStr.nl ++ d
                         ++ " dosage is available for immediate order.")).
Proof.
  intros Hd Hq. apply String.eqb_neq in Hd. apply too_large_false in Hq.
  unfold check_availability.
  destruct (found_med n) as [med|] eqn:Hf.
  - rewrite Hd. cbn [negb andb].
    destruct (PyStr.mem d (dosages med)) eqn:Hm; cbn [negb].
    + apply mem_spec in Hm.
      rewrite (place_order_success F n d q p now orders med Hf Hm Hq).
      cbn [fst succeeded ok_result isError negb].
      split; [intros _; now exists med | reflexivity].
    + unfold place_order. rewrite Hf, Hm. cbn [negb Handler.ret fst succeeded].
      split; [discriminate|].
      intros (med' & [= <-] & H). exfalso.
      apply (f_equal text) in H. unfold ok_result in H. cbn [text] in H.
      now apply not_in_dosage_text_differs in H.
  - unfold place_order. rewrite Hf. cbn [Handler.ret fst succeeded].
    split; [discriminate | intros (med & H & _); discriminate].
Qed.

Lemma availability_agrees_with_ordering_witness :
  succeeded (fst (place_order decimal_ops "amlodipine" "5mg" 10 "P" "t" [])) = true
  <-> exists med,
        found_med "amlodipine" = Some med
        /\ check_availability "amlodipine" (Some "5mg")
           = ok_result (in_stock_text med ++ PyStr.nl ++ "5mg"
                        ++ " dosage is available for immediate order.").
Proof.
  apply (availability_agrees_with_ordering decimal_ops "amlodipine" "5mg" 10%Z
           "P" "t" []).
  - discriminate.
  - reflexivity.
Defined.

Lemma no_empty_dosage :
  Forall (fun e => ~ In "" (dosages (snd e))) MEDICINES.
Proof.
  unfold MEDICINES.
  repeat (apply Forall_cons; [cbn [snd dosages In]; intuition discriminate|]).
  apply Forall_nil.
Qed.

(** X21: the empty dosage string is no dosage for the availability check,
    which answers as if none were given, but is a dosage like any other for
    [place_order], which rejects it for every name that resolves, no
    catalogue record listing it. *)
Theorem empty_dosage_handling (F : float_ops) (n : string) (q : Z)
    (p now : string) (orders : ledger F) :
  check_availability n (Some "") = check_availability n None
  /\ (forall med, found_med n = Some med ->
                  place_order F n "" q p now orders
                  = (Returned (error_result ("Order Failed:  not valid for "
                                             ++ name med ++ ".")),
                     orders)).
Proof.
  split.
  - unfold check_availability. destruct (found_med n) as [med|]; [|reflexivity].
    cbn [String.eqb negb andb]. now rewrite str_append_nil.
  - intros med Hf. unfold place_order. rewrite Hf.
    destruct (first_match_In _ _ _ Hf) as [key Hin].
    pose proof no_empty_dosage as Hno. rewrite Forall_forall in Hno.
    specialize (Hno _ Hin). cbn [snd] in Hno. apply mem_false in Hno.
    now rewrite Hno.
Qed.

Lemma empty_dosage_handling_witness :
  place_order decimal_ops "ibuprofen" "" 5 "P" "t" []
  = (Returned (error_result ("Order Failed:  not valid for "
                             ++ name (Medicine "Ibuprofen" ["200mg"; "400mg"; "600mg"]
                                               850 "NSAID") ++ ".")),
     []).
Proof.
  apply (proj2 (empty_dosage_handling decimal_ops "ibuprofen" 5%Z "P" "t" [])).
  reflexivity.
Defined.
